(** * speedscope: textual tree summaries (src/lib/tree-summary.ts)

    A shallow embedding of the summary engine: the threshold-filtered
    call-tree renderer [buildTreeLines], the frame aggregation
    [buildBottomsUpEntries], the two report generators and the clipboard
    helper, followed by the properties the specification states about them.

    Conventions of the embedding.
    - A JavaScript [number] is an exact rational ([Q]); rounding of IEEE
      doubles and the values NaN and Infinity are outside this model.  A
      division by zero therefore yields [0] (Stdlib's [Qdiv]) where the
      program would compute NaN; no property below depends on such a value.
      Where rounding decides a property, the aggregation is also embedded
      over binary64 numbers (module [Double]).
    - A JavaScript string is the [string] of its UTF-8 bytes; its [length],
      which counts UTF-16 code units, is [js_length].
    - An array that is only pushed to is a list growing at its end.
    - A [Map] is an association list in insertion order, which is the order
      in which the program iterates over it.
    - An object compared by reference (a [Frame]) carries an explicit
      identity. *)

From Stdlib Require Import List String Ascii Bool Arith ZArith QArith.
From Stdlib Require Import Permutation Sorted DecimalString Qround Lia Lqa.
From Stdlib Require Import Qabs.
From Stdlib Require SpecFloat.
Import ListNotations.

Set Warnings "-register-all".

Local Open Scope list_scope.
Local Open Scope string_scope.
Local Open Scope Q_scope.

(** ** JavaScript primitives used by the module *)

(** [a >= b] on numbers. *)
Definition Qge_bool (a b : Q) : bool := Qle_bool b a.

(** [x < 0] on numbers, as used on the result of a sort comparator. *)
Definition Qneg_bool (x : Q) : bool := negb (Qle_bool 0 x).

(** [s.repeat(n)]. *)
Fixpoint str_repeat (s : string) (n : nat) : string :=
  match n with
  | O => ""
  | S n' => s ++ str_repeat s n'
  end.

(** [s.length]: the number of UTF-16 code units of the text whose UTF-8
    bytes the string holds.  A byte below 0x80 is a character of one unit, a
    continuation byte (0x80-0xBF) adds nothing, a lead byte below 0xF0 opens
    a character of one unit and a lead byte from 0xF0 on a character of two
    units, a surrogate pair. *)
Definition utf16_units (byte : ascii) : nat :=
  match byte with
  | Ascii _ _ _ _ b4 b5 b6 b7 =>
      if negb b7 then 1%nat
      else if negb b6 then 0%nat
      else if b5 && b4 then 2%nat
      else 1%nat
  end.

Fixpoint js_length (s : string) : nat :=
  match s with
  | EmptyString => 0%nat
  | String byte rest => (utf16_units byte + js_length rest)%nat
  end.

(** [arr.join(sep)]. *)
Fixpoint join (sep : string) (arr : list string) : string :=
  match arr with
  | [] => ""
  | [s] => s
  | s :: rest => s ++ sep ++ join sep rest
  end.

(** The decimal rendering of an integral number inside a template literal. *)
Definition nat_to_string (n : nat) : string :=
  NilZero.string_of_uint (Nat.to_uint n).

Definition Z_to_string (z : Z) : string :=
  NilZero.string_of_int (Z.to_int z).

(** The line feed used by [output.join('\n')]. *)
Definition LF : string := String (ascii_of_nat 10) "".

Section ArrayOps.
Context {A : Type}.

(** [arr.push(...items)]. *)
Definition push (arr items : list A) : list A := (arr ++ items)%list.

(** [arr.forEach((x, index) => ...)], the callback threading the state it
    mutates. *)
Fixpoint forEach_from {S : Type} (f : A -> nat -> S -> S)
         (arr : list A) (index : nat) (s : S) : S :=
  match arr with
  | [] => s
  | x :: rest => forEach_from f rest (Datatypes.S index) (f x index s)
  end.

Definition forEach {S : Type} (arr : list A) (f : A -> nat -> S -> S)
           (s : S) : S :=
  forEach_from f arr 0%nat s.

(** [arr.sort(cmp)].  ECMAScript requires the sort to be stable; with a
    comparator that is a consistent ordering every stable sort returns the
    same array, here computed by insertion.  [cmp y x < 0] means that [y]
    must come before [x]. *)
Fixpoint sort_insert (cmp : A -> A -> Q) (x : A) (sorted : list A) : list A :=
  match sorted with
  | [] => [x]
  | y :: rest =>
      if Qneg_bool (cmp y x) then y :: sort_insert cmp x rest
      else x :: y :: rest
  end.

Fixpoint Array_sort (cmp : A -> A -> Q) (arr : list A) : list A :=
  match arr with
  | [] => []
  | x :: rest => sort_insert cmp x (Array_sort cmp rest)
  end.
End ArrayOps.

(** ** Data model *)

(** Modelled from the spec: the class [Frame] of lib/profile.ts is not among
    the sources.  A frame has a name and an optional file, line and column
    (read at lines 58-61), and frames are compared by reference: [id] is the
    identity of the object, so that two frames are the same object exactly
    when they are equal as records. *)
Module Frame.
Record t : Type := mk {
  id : positive;
  name : string;
  file : option string;
  line : option Z;
  col : option Z
}.

Definition eq_dec (a b : t) : {a = b} + {a <> b}.
Proof.
  repeat decide equality.
Defined.

Definition eqb (a b : t) : bool := if eq_dec a b then true else false.
End Frame.

(** Modelled from the spec: the class [CallTreeNode] of lib/profile.ts is not
    among the sources.  A node refers to its frame, owns an ordered
    collection of children and answers [isRoot()], [getTotalWeight()] and
    [getSelfWeight()]; these are the members the module reads.  No relation
    between the answers is built in: the weight model and the sign of the
    weights are hypotheses where a property needs them. *)
Inductive CallTreeNode : Type :=
  mkNode {
    frame : Frame.t;
    isRoot : bool;
    getTotalWeight : Q;
    getSelfWeight : Q;
    children : list CallTreeNode
  }.

(** [interface TreeLine]. *)
Module TreeLine.
Record t : Type := mk {
  indent : string;
  name : string;
  file : option string;
  line : option Z;
  col : option Z;
  totalWeight : Q;
  selfWeight : Q;
  totalPercent : Q;
  selfPercent : Q
}.
End TreeLine.

(** [interface BottomsUpEntry]. *)
Module BottomsUpEntry.
Record t : Type := mk {
  frame : Frame.t;
  totalWeight : Q;
  selfWeight : Q;
  totalPercent : Q;
  selfPercent : Q
}.
End BottomsUpEntry.

(** [const MIN_WEIGHT_THRESHOLD = 0.01]. *)
Definition MIN_WEIGHT_THRESHOLD : Q := 1 # 100.

(** ** The tree renderer *)

(** The record pushed by [buildTreeLines] for a node (lines 56-66). *)
Definition treeLineOf (node : CallTreeNode) (totalWeight : Q)
           (indent : string) : TreeLine.t :=
  {| TreeLine.indent := indent;
     TreeLine.name := Frame.name (frame node);
     TreeLine.file := Frame.file (frame node);
     TreeLine.line := Frame.line (frame node);
     TreeLine.col := Frame.col (frame node);
     TreeLine.totalWeight := getTotalWeight node;
     TreeLine.selfWeight := getSelfWeight node;
     TreeLine.totalPercent := (getTotalWeight node / totalWeight) * 100;
     TreeLine.selfPercent := (getSelfWeight node / totalWeight) * 100 |}.

(** The remaining arguments of a recursive call of [buildTreeLines] once the
    node is fixed: [totalWeight], [minWeight], [lines], [prefix], [isLast],
    [isRoot]; the result is the array [lines] after the call. *)
Definition Render : Type :=
  Q -> Q -> list TreeLine.t -> string -> bool -> bool -> list TreeLine.t.

(** [.filter(child => child.getTotalWeight() >= minWeight)] and
    [.sort((a, b) => b.getTotalWeight() - a.getTotalWeight())] on children
    that carry some payload. *)
Definition heavyEnough {B : Type} (minWeight : Q) (c : CallTreeNode * B) : bool :=
  Qge_bool (getTotalWeight (fst c)) minWeight.

Definition byTotalDesc {B : Type} (a b : CallTreeNode * B) : Q :=
  getTotalWeight (fst b) - getTotalWeight (fst a).

(** [buildTreeLines] (lines 30-85).  To keep the recursion structural each
    child is paired with its own recursive call before the children are
    filtered and sorted; [buildTreeLines_unfold] below shows that this is the
    recursion of the source. *)
Fixpoint buildTreeLines (node : CallTreeNode) (totalWeight minWeight : Q)
         (lines : list TreeLine.t) (prefix : string)
         (isLast isRootArg : bool) {struct node} : list TreeLine.t :=
  let selected : list (CallTreeNode * Render) :=
    Array_sort byTotalDesc
      (filter (heavyEnough minWeight)
         (map (fun child => (child, buildTreeLines child)) (children node))) in
  if isRoot node then
    forEach selected
      (fun child index lines =>
         snd child totalWeight minWeight lines ""
             (index =? List.length selected - 1)%nat true)
      lines
  else
    let connector :=
      if isRootArg then "" else if isLast then "└─ " else "├─ " in
    let indent := prefix ++ connector in
    let lines := push lines [treeLineOf node totalWeight indent] in
    let childPrefix :=
      prefix ++ (if isRootArg then "" else if isLast then "   " else "│  ") in
    forEach selected
      (fun child index lines =>
         snd child totalWeight minWeight lines childPrefix
             (index =? List.length selected - 1)%nat false)
      lines.

(** ** The bottoms-up aggregation *)

(** The object [{totalWeight, selfWeight}] stored per frame. *)
Module Weights.
Record t : Type := mk {
  totalWeight : Q;
  selfWeight : Q
}.
End Weights.

(** [Map<Frame, {totalWeight, selfWeight}>], in insertion order. *)
Definition FrameMap : Type := list (Frame.t * Weights.t).

Fixpoint Map_get (m : FrameMap) (k : Frame.t) : option Weights.t :=
  match m with
  | [] => None
  | (k', v) :: rest => if Frame.eq_dec k' k then Some v else Map_get rest k
  end.

(** [m.set(k, v)]: a present key keeps its position, a new key goes last.
    Updating in place the object a key is bound to is the same operation. *)
Fixpoint Map_set (m : FrameMap) (k : Frame.t) (v : Weights.t) : FrameMap :=
  match m with
  | [] => [(k, v)]
  | (k', v') :: rest =>
      if Frame.eq_dec k' k then (k', v) :: rest
      else (k', v') :: Map_set rest k v
  end.

(** Lines 120-130: the contribution of one visited node. *)
Definition accumulate (frameWeights : FrameMap) (n : CallTreeNode) : FrameMap :=
  match Map_get frameWeights (frame n) with
  | Some existing =>
      Map_set frameWeights (frame n)
        {| Weights.totalWeight := Weights.totalWeight existing + getTotalWeight n;
           Weights.selfWeight := Weights.selfWeight existing + getSelfWeight n |}
  | None =>
      Map_set frameWeights (frame n)
        {| Weights.totalWeight := getTotalWeight n;
           Weights.selfWeight := getSelfWeight n |}
  end.

(** [walkSubtree] (lines 111-136); the map it mutates is threaded. *)
Fixpoint walkSubtree (n : CallTreeNode) (frameWeights : FrameMap) : FrameMap :=
  if isRoot n then
    fold_left (fun frameWeights child => walkSubtree child frameWeights)
              (children n) frameWeights
  else
    let frameWeights := accumulate frameWeights n in
    fold_left (fun frameWeights child => walkSubtree child frameWeights)
              (children n) frameWeights.

(** The entry pushed for one binding of the map (lines 144-150). *)
Definition entryOf (totalWeight : Q) (frame : Frame.t) (weights : Weights.t)
  : BottomsUpEntry.t :=
  {| BottomsUpEntry.frame := frame;
     BottomsUpEntry.totalWeight := Weights.totalWeight weights;
     BottomsUpEntry.selfWeight := Weights.selfWeight weights;
     BottomsUpEntry.totalPercent := (Weights.totalWeight weights / totalWeight) * 100;
     BottomsUpEntry.selfPercent := (Weights.selfWeight weights / totalWeight) * 100 |}.

Definition bySelfDesc (a b : BottomsUpEntry.t) : Q :=
  BottomsUpEntry.selfWeight b - BottomsUpEntry.selfWeight a.

(** [buildBottomsUpEntries] (lines 102-158). *)
Definition buildBottomsUpEntries (node : CallTreeNode)
           (totalWeight minSelfWeight : Q) : list BottomsUpEntry.t :=
  let frameWeights := walkSubtree node [] in
  let entries :=
    fold_left
      (fun entries binding =>
         let '(frame, weights) := binding in
         if Qge_bool (Weights.selfWeight weights) minSelfWeight
         then push entries [entryOf totalWeight frame weights]
         else entries)
      frameWeights [] in
  Array_sort bySelfDesc entries.

(** ** Report formatting *)

(** [if (file) { location = file; if (line != null) { location +=
    `:${line}`; if (col != null) location += `:${col}` } }], the block of
    lines 169-176, 211-218, 240-247 and 324-331.  An empty file name is
    falsy. *)
Definition locationOf (file : option string) (line col : option Z)
  : option string :=
  match file with
  | None => None
  | Some "" => None
  | Some f =>
      Some (match line with
            | None => f
            | Some l =>
                match col with
                | None => f ++ ":" ++ Z_to_string l
                | Some c => f ++ ":" ++ Z_to_string l ++ ":" ++ Z_to_string c
                end
            end)
  end.

(** [name += ` (${location})`] when there is a location. *)
Definition displayName (name : string) (file : option string)
           (line col : option Z) : string :=
  match locationOf file line col with
  | Some location => name ++ " (" ++ location ++ ")"
  | None => name
  end.

(** The options of [generateTreeSummary]. *)
Module TreeSummaryOptions.
Record t : Type := mk {
  node : CallTreeNode;
  totalWeight : Q;
  formatValue : Q -> string
}.
End TreeSummaryOptions.

(** Modelled from the spec: the class [Profile] of lib/profile.ts is not
    among the sources.  A profile owns a grouped call-tree root, a total
    weight and a value formatter, the members read at lines 301-303. *)
Module Profile.
Record t : Type := mk {
  getGroupedCalltreeRoot : CallTreeNode;
  getTotalNonIdleWeight : Q;
  formatValue : Q -> string
}.
End Profile.

Module ProfileInfo.
Record t : Type := mk {
  name : string;
  profile : Profile.t
}.
End ProfileInfo.

Section Reports.
(** [formatPercent] is imported from lib/utils.ts. *)
Variable formatPercent : Q -> string.

(** [formatTreeLine] (lines 163-184). *)
Definition formatTreeLine (line : TreeLine.t) (formatValue : Q -> string)
  : list string :=
  let stats :=
    "[" ++ formatValue (TreeLine.totalWeight line)
        ++ " (" ++ formatPercent (TreeLine.totalPercent line)
        ++ "), self: " ++ formatValue (TreeLine.selfWeight line)
        ++ " (" ++ formatPercent (TreeLine.selfPercent line) ++ ")]" in
  let name :=
    displayName (TreeLine.name line) (TreeLine.file line)
                (TreeLine.line line) (TreeLine.col line) in
  [ TreeLine.indent line ++ name;
    TreeLine.indent line
      ++ str_repeat " " (js_length name - js_length stats)
      ++ stats ].

(** The three rows pushed per bottoms-up entry (lines 239-255 and
    323-339). *)
Definition formatBottomsUpEntry (entry : BottomsUpEntry.t)
           (formatValue : Q -> string) : list string :=
  let f := BottomsUpEntry.frame entry in
  let name :=
    displayName (Frame.name f) (Frame.file f) (Frame.line f) (Frame.col f) in
  let stats :=
    "[self: " ++ formatValue (BottomsUpEntry.selfWeight entry)
        ++ " (" ++ formatPercent (BottomsUpEntry.selfPercent entry)
        ++ "), total: " ++ formatValue (BottomsUpEntry.totalWeight entry)
        ++ " (" ++ formatPercent (BottomsUpEntry.totalPercent entry) ++ ")]" in
  [ name; stats; "" ].

(** A [for ... of] loop whose body pushes rows onto [output]. *)
Definition pushEach {A : Type} (rows : A -> list string) (arr : list A)
           (output : list string) : list string :=
  fold_left (fun output x => push output (rows x)) arr output.

Definition NO_DATA : string := "No data available".

(** [generateTreeSummary] (lines 194-284). *)
Definition generateTreeSummary (options : TreeSummaryOptions.t) : string :=
  let node := TreeSummaryOptions.node options in
  let totalWeight := TreeSummaryOptions.totalWeight options in
  let formatValue := TreeSummaryOptions.formatValue options in
  let output : list string := [] in
  let output := push output ["Performance Summary"; str_repeat "=" 60; ""] in
  let nodeWeight := if isRoot node then totalWeight else getTotalWeight node in
  let output :=
    if negb (isRoot node) then
      let output := push output ["Selected: " ++ Frame.name (frame node)] in
      let output :=
        match locationOf (Frame.file (frame node)) (Frame.line (frame node))
                         (Frame.col (frame node)) with
        | Some location => push output ["Location: " ++ location]
        | None => output
        end in
      let totalPercent := (getTotalWeight node / totalWeight) * 100 in
      let selfPercent := (getSelfWeight node / totalWeight) * 100 in
      push output ["Total: " ++ formatValue (getTotalWeight node)
               ++ " (" ++ formatPercent totalPercent ++ ")";
             "Self: " ++ formatValue (getSelfWeight node)
               ++ " (" ++ formatPercent selfPercent ++ ")";
             ""]
    else output in
  let bottomsUpMinSelfWeight := totalWeight * MIN_WEIGHT_THRESHOLD in
  let bottomsUpEntries :=
    buildBottomsUpEntries node totalWeight bottomsUpMinSelfWeight in
  let output :=
    if (0 <? List.length bottomsUpEntries)%nat then
      let output :=
        push output ["Bottoms Up (by self time, >=1% of total):";
                    str_repeat "-" 60; ""] in
      pushEach (fun entry => formatBottomsUpEntry entry formatValue)
               bottomsUpEntries output
    else output in
  let callTreeMinWeight := nodeWeight * MIN_WEIGHT_THRESHOLD in
  let callTreeLines :=
    buildTreeLines node totalWeight callTreeMinWeight [] "" true true in
  let output :=
    if (0 <? List.length callTreeLines)%nat then
      let output :=
        push output ["Call Tree (callees, >=1% of selection):";
                    str_repeat "-" 60; ""] in
      let output :=
        pushEach (fun line => formatTreeLine line formatValue)
                 callTreeLines output in
      push output [""]
    else output in
  if ((List.length bottomsUpEntries =? 0) && (List.length callTreeLines =? 0))%nat
  then NO_DATA
  else
    let output :=
      push output [str_repeat "-" 60;
                  "Total weight of profile: " ++ formatValue totalWeight] in
    join LF output.

(** The body of the loop of [generateAllProfilesSummary] for the profile at
    index [i] of [count] (lines 300-357). *)
Definition profileBlock (count : nat) (info : ProfileInfo.t) (i : nat)
           (output : list string) : list string :=
  let name := ProfileInfo.name info in
  let profile := ProfileInfo.profile info in
  let root := Profile.getGroupedCalltreeRoot profile in
  let totalWeight := Profile.getTotalNonIdleWeight profile in
  let formatValue := Profile.formatValue profile in
  let output :=
    if (1 <? count)%nat then
      push output [str_repeat "=" 60;
                  "Profile " ++ nat_to_string (i + 1) ++ "/"
                    ++ nat_to_string count ++ ": " ++ name;
                  "Total: " ++ formatValue totalWeight;
                  str_repeat "=" 60;
                  ""]
    else output in
  let bottomsUpMinSelfWeight := totalWeight * MIN_WEIGHT_THRESHOLD in
  let bottomsUpEntries :=
    buildBottomsUpEntries root totalWeight bottomsUpMinSelfWeight in
  let output :=
    if (0 <? List.length bottomsUpEntries)%nat then
      let output :=
        push output ["Bottoms Up (by self time, >=1% of total):";
                    str_repeat "-" 60; ""] in
      pushEach (fun entry => formatBottomsUpEntry entry formatValue)
               bottomsUpEntries output
    else output in
  let callTreeMinWeight := totalWeight * MIN_WEIGHT_THRESHOLD in
  let callTreeLines :=
    buildTreeLines root totalWeight callTreeMinWeight [] "" true true in
  if (0 <? List.length callTreeLines)%nat then
    let output :=
      push output ["Call Tree (>=1% of total):"; str_repeat "-" 60; ""] in
    let output :=
      pushEach (fun line => formatTreeLine line formatValue)
               callTreeLines output in
    push output [""]
  else output.

(** [generateAllProfilesSummary] (lines 290-361). *)
Definition generateAllProfilesSummary (profiles : list ProfileInfo.t) : string :=
  let output : list string := [] in
  let output :=
    push output ["Performance Profile Summary"; str_repeat "=" 60; "";
                "Total profiles: " ++ nat_to_string (List.length profiles);
                ""] in
  let output :=
    forEach profiles (profileBlock (List.length profiles)) output in
  join LF output.
End Reports.

(** ** Delivery to the clipboard *)

(** Effects of the asynchronous code: an awaited call either yields a value
    or throws, and [console.error] appends to the console.  A computation
    takes the console and returns its completion with the console it
    leaves. *)
Module Js.
Inductive completion (A : Type) : Type :=
| Normal (value : A)
| Throw (err : string).
Arguments Normal {A} value.
Arguments Throw {A} err.

Definition M (A : Type) : Type := list string -> completion A * list string.

Definition ret {A : Type} (a : A) : M A := fun console => (Normal a, console).

Definition bind {A B : Type} (c : M A) (k : A -> M B) : M B :=
  fun console =>
    match c console with
    | (Normal a, console') => k a console'
    | (Throw err, console') => (Throw err, console')
    end.

Definition try_catch {A : Type} (body : M A) (handler : string -> M A) : M A :=
  fun console =>
    match body console with
    | (Normal a, console') => (Normal a, console')
    | (Throw err, console') => handler err console'
    end.

Definition console_error (msg err : string) : M unit :=
  fun console => (Normal tt, push console [msg ++ " " ++ err]).
End Js.

Notation "c ;;; k" := (Js.bind c (fun _ => k))
  (at level 61, right associativity).

(** [copyToClipboard] (lines 366-374); [writeText] stands for
    [navigator.clipboard.writeText], awaited.  The completion returned is
    what the promise of the function settles to. *)
Definition copyToClipboard (writeText : string -> Js.M unit) (text : string)
  : Js.M bool :=
  Js.try_catch
    (writeText text ;;; Js.ret true)
    (fun err =>
       Js.console_error "Failed to copy to clipboard:" err ;;;
       Js.ret false).

(** ** Views of a call tree used in the statements *)

(** The nodes of a subtree in pre-order, the start node first. *)
Fixpoint nodes (n : CallTreeNode) : list CallTreeNode :=
  n :: flat_map nodes (children n).

(** The nodes of a subtree for which [isRoot()] does not hold. *)
Definition visited (n : CallTreeNode) : list CallTreeNode :=
  filter (fun m => negb (isRoot m)) (nodes n).

(** The order of a list sorted by a key, largest first: [a] may come before
    [b]. *)
Definition descending {A : Type} (key : A -> Q) (a b : A) : Prop :=
  key b <= key a.

(** The sum of a list of numbers. *)
Definition Qsum (l : list Q) : Q := fold_right Qplus 0 l.

(** The weight model of a call tree: a node's total weight is its self weight
    plus the total weights of its children, and a node for which [isRoot()]
    holds has no self weight. *)
Definition weightModelAt (n : CallTreeNode) : Prop :=
  getTotalWeight n == getSelfWeight n + Qsum (map getTotalWeight (children n))
  /\ (isRoot n = true -> getSelfWeight n == 0).

(** The weight model, at every node of the subtree. *)
Definition weightModel (start : CallTreeNode) : Prop :=
  Forall weightModelAt (nodes start).


(** The same for total weights. *)
Definition nonNegativeTotal (start : CallTreeNode) : Prop :=
  Forall (fun n => 0 <= getTotalWeight n) (nodes start).

(** The children a call of [buildTreeLines] recurses into (lines 44-46 and
    69-71): those reaching the threshold, heaviest first. *)
Definition selectedChildren (minWeight : Q) (node : CallTreeNode)
  : list CallTreeNode :=
  Array_sort (fun a b => getTotalWeight b - getTotalWeight a)
    (filter (fun child => Qge_bool (getTotalWeight child) minWeight)
            (children node)).

(** The nodes a call pushes a line for: the node itself unless it is the
    root, then those of the children that reach the threshold.  The children
    are taken here in their stored order; the renderer takes them heaviest
    first. *)
Fixpoint visibleNodes (minWeight : Q) (node : CallTreeNode)
  : list CallTreeNode :=
  ((if isRoot node then [] else [node])
   ++ flat_map
        (fun child =>
           if Qge_bool (getTotalWeight child) minWeight
           then visibleNodes minWeight child else [])
        (children node))%list.

(** A line without its indentation. *)
Definition unindent (l : TreeLine.t) : TreeLine.t :=
  {| TreeLine.indent := "";
     TreeLine.name := TreeLine.name l;
     TreeLine.file := TreeLine.file l;
     TreeLine.line := TreeLine.line l;
     TreeLine.col := TreeLine.col l;
     TreeLine.totalWeight := TreeLine.totalWeight l;
     TreeLine.selfWeight := TreeLine.selfWeight l;
     TreeLine.totalPercent := TreeLine.totalPercent l;
     TreeLine.selfPercent := TreeLine.selfPercent l |}.

(** The weights a frame is bound to once one more node is merged into
    them. *)
Definition merge (existing : option Weights.t) (n : CallTreeNode) : Weights.t :=
  match existing with
  | Some w =>
      {| Weights.totalWeight := Weights.totalWeight w + getTotalWeight n;
         Weights.selfWeight := Weights.selfWeight w + getSelfWeight n |}
  | None =>
      {| Weights.totalWeight := getTotalWeight n;
         Weights.selfWeight := getSelfWeight n |}
  end.

(** The weights a frame ends with after the given nodes, all of that frame,
    were visited in turn. *)
Definition aggregate (occurrences : list CallTreeNode) : option Weights.t :=
  fold_left (fun w n => Some (merge w n)) occurrences None.

(** [n.frame === f]. *)
Definition hasFrame (f : Frame.t) (n : CallTreeNode) : bool :=
  Frame.eqb (frame n) f.

(** The keys of the map, in insertion order. *)
Definition keys (m : FrameMap) : list Frame.t := map fst m.

(** The test of line 143 and the entry of lines 144-150, on a binding of the
    map. *)
Definition passes (minSelfWeight : Q) (binding : Frame.t * Weights.t) : bool :=
  Qge_bool (Weights.selfWeight (snd binding)) minSelfWeight.

Definition entryOfBinding (totalWeight : Q) (binding : Frame.t * Weights.t)
  : BottomsUpEntry.t :=
  entryOf totalWeight (fst binding) (snd binding).


(** ** The layout of the reports

    The blocks of rows a report is made of, used to state what the
    generators return. *)

Section ArrayMapi.
Context {A B : Type}.

(** [arr.map((x, index) => ...)], counting from [index]. *)
Fixpoint mapi_from (f : A -> nat -> B) (arr : list A) (index : nat) : list B :=
  match arr with
  | [] => []
  | x :: rest => f x index :: mapi_from f rest (S index)
  end.
End ArrayMapi.

Section Layout.
Variable formatPercent : Q -> string.

(** The weight the call-tree threshold of the single-subtree report is
    taken from (line 206). *)
Definition selectionWeight (node : CallTreeNode) (totalWeight : Q) : Q :=
  if isRoot node then totalWeight else getTotalWeight node.

(** Lines 201-203. *)
Definition summaryHeader : list string :=
  ["Performance Summary"; str_repeat "=" 60; ""].

(** Lines 209-226: the summary of the selected node, absent for the root. *)
Definition selectedBlock (node : CallTreeNode) (totalWeight : Q)
           (formatValue : Q -> string) : list string :=
  if isRoot node then []
  else
    let selected := "Selected: " ++ Frame.name (frame node) in
    let location :=
      match locationOf (Frame.file (frame node)) (Frame.line (frame node))
                       (Frame.col (frame node)) with
      | Some location => ["Location: " ++ location]
      | None => []
      end in
    let total :=
      "Total: " ++ formatValue (getTotalWeight node)
        ++ " (" ++ formatPercent ((getTotalWeight node / totalWeight) * 100)
        ++ ")" in
    let self :=
      "Self: " ++ formatValue (getSelfWeight node)
        ++ " (" ++ formatPercent ((getSelfWeight node / totalWeight) * 100)
        ++ ")" in
    ([selected] ++ location ++ [total; self; ""])%list.

(** Lines 233-257 and 317-341: the section is absent when there is no
    entry. *)
Definition bottomsUpSection (formatValue : Q -> string)
           (entries : list BottomsUpEntry.t) : list string :=
  match entries with
  | [] => []
  | _ =>
      (["Bottoms Up (by self time, >=1% of total):"; str_repeat "-" 60; ""]
       ++ flat_map (fun entry => formatBottomsUpEntry formatPercent entry formatValue)
                   entries)%list
  end.

(** Lines 265-274 and 348-357: the section is absent when there is no
    line. *)
Definition callTreeSection (title : string) (formatValue : Q -> string)
           (lines : list TreeLine.t) : list string :=
  match lines with
  | [] => []
  | _ =>
      ([title; str_repeat "-" 60; ""]
       ++ flat_map (fun line => formatTreeLine formatPercent line formatValue) lines
       ++ [""])%list
  end.

(** Lines 280-281. *)
Definition summaryFooter (totalWeight : Q) (formatValue : Q -> string)
  : list string :=
  [str_repeat "-" 60; "Total weight of profile: " ++ formatValue totalWeight].

(** Lines 293-297. *)
Definition allProfilesHeader (count : nat) : list string :=
  ["Performance Profile Summary"; str_repeat "=" 60; "";
   "Total profiles: " ++ nat_to_string count; ""].

(** The sub-header that delimits a profile (lines 306-310). *)
Definition profileSubHeader (count : nat) (info : ProfileInfo.t) (i : nat)
  : list string :=
  let profile := ProfileInfo.profile info in
  [str_repeat "=" 60;
   "Profile " ++ nat_to_string (i + 1) ++ "/" ++ nat_to_string count
     ++ ": " ++ ProfileInfo.name info;
   "Total: " ++ Profile.formatValue profile (Profile.getTotalNonIdleWeight profile);
   str_repeat "=" 60;
   ""].

(** The two sections of a profile, both cut at one percent of the
    profile's own total weight. *)
Definition profileSections (info : ProfileInfo.t) : list string :=
  let profile := ProfileInfo.profile info in
  let root := Profile.getGroupedCalltreeRoot profile in
  let totalWeight := Profile.getTotalNonIdleWeight profile in
  let formatValue := Profile.formatValue profile in
  (bottomsUpSection formatValue
     (buildBottomsUpEntries root totalWeight (totalWeight * (1 # 100)))
   ++ callTreeSection "Call Tree (>=1% of total):" formatValue
        (buildTreeLines root totalWeight (totalWeight * (1 # 100))
           [] "" true true))%list.

(** All the rows of the profile at index [i] of [count]. *)
Definition profileRows (count : nat) (info : ProfileInfo.t) (i : nat)
  : list string :=
  ((if (1 <? count)%nat then profileSubHeader count info i else [])
   ++ profileSections info)%list.
End Layout.

(** ** Formatters and trees of the specification's examples *)

(** Modelled from the spec: [formatPercent] of lib/utils.ts is not among the
    sources.  The report layout of the specification writes a percentage as
    [<pct>%] and its worked example prints 100, 10 and 90 percent as
    [100.0%], [10.0%] and [90.0%]: one digit after the decimal point,
    rounded to the nearest tenth. *)
Definition formatPercent_oneDecimal (percent : Q) : string :=
  let tenths := Qfloor (percent * 10 + (1 # 2)) in
  Z_to_string (tenths / 10) ++ "." ++ Z_to_string (tenths mod 10) ++ "%".

(** A caller-supplied [formatValue] that prints a weight as a bare integer,
    as the worked example of the specification does. *)
Definition formatValue_plain (v : Q) : string := Z_to_string (Qfloor v).

(** A frame without location. *)
Definition frameOf (id : positive) (name : string) : Frame.t :=
  {| Frame.id := id; Frame.name := name;
     Frame.file := None; Frame.line := None; Frame.col := None |}.

Definition rootFrame : Frame.t := frameOf 1 "(speedscope root)".
Definition frameA : Frame.t := frameOf 2 "A".
Definition frameB : Frame.t := frameOf 3 "B".

(** A synthetic root, without self weight. *)
Definition rootOf (total : Q) (kids : list CallTreeNode) : CallTreeNode :=
  mkNode rootFrame true total 0 kids.

(** root -> A(total=100, self=10) -> B(total=90, self=90). *)
Definition exampleB : CallTreeNode := mkNode frameB false 90 90 [].
Definition exampleA : CallTreeNode := mkNode frameA false 100 10 [exampleB].
Definition exampleRoot : CallTreeNode := rootOf 100 [exampleA].

(** root -> A(total=100, self=10) -> A(total=90, self=90): a recursive call. *)
Definition recursiveInner : CallTreeNode := mkNode frameA false 90 90 [].
Definition recursiveOuter : CallTreeNode := mkNode frameA false 100 10 [recursiveInner].
Definition recursiveRoot : CallTreeNode := rootOf 100 [recursiveOuter].

(** The empty profile: a root without children. *)
Definition emptyRoot : CallTreeNode := rootOf 0 [].

(** The options of the worked example: the report of the whole profile. *)
Definition exampleOptions (formatValue : Q -> string) : TreeSummaryOptions.t :=
  {| TreeSummaryOptions.node := exampleRoot;
     TreeSummaryOptions.totalWeight := 100;
     TreeSummaryOptions.formatValue := formatValue |}.

(** A profile without data. *)
Definition emptyProfile (name : string) (formatValue : Q -> string)
  : ProfileInfo.t :=
  {| ProfileInfo.name := name;
     ProfileInfo.profile :=
       {| Profile.getGroupedCalltreeRoot := emptyRoot;
          Profile.getTotalNonIdleWeight := 0;
          Profile.formatValue := formatValue |} |}.

(** ** Further views used in the statements *)

(** The frames of a list in the order in which they are first met. *)
Definition noteFrame (seen : list Frame.t) (f : Frame.t) : list Frame.t :=
  if in_dec Frame.eq_dec f seen then seen else (seen ++ [f])%list.

Definition firstSeen (frames : list Frame.t) : list Frame.t :=
  fold_left noteFrame frames [].

(** The comparator of line 155 on the bindings the entries are made from. *)
Definition bindingBySelfDesc (a b : Frame.t * Weights.t) : Q :=
  Weights.selfWeight (snd b) - Weights.selfWeight (snd a).

(** The five fields of an entry. *)
Definition entryFields (e : BottomsUpEntry.t) : Frame.t * Q * Q * Q * Q :=
  (BottomsUpEntry.frame e, BottomsUpEntry.totalWeight e,
   BottomsUpEntry.selfWeight e, BottomsUpEntry.totalPercent e,
   BottomsUpEntry.selfPercent e).

(** What an entry says apart from its percentages. *)
Definition entryWeights (e : BottomsUpEntry.t) : Frame.t * Q * Q :=
  (BottomsUpEntry.frame e, BottomsUpEntry.totalWeight e,
   BottomsUpEntry.selfWeight e).

(** The connector and the prefix handed to the children (lines 53 and 72). *)
Definition connectorOf (isLast isRootArg : bool) : string :=
  if isRootArg then "" else if isLast then "└─ " else "├─ ".

Definition childPrefixOf (prefix : string) (isLast isRootArg : bool) : string :=
  prefix ++ (if isRootArg then "" else if isLast then "   " else "│  ").

(** The stats suffix of a call-tree line (lines 164-166). *)
Definition statsOf (formatPercent : Q -> string) (line : TreeLine.t)
           (formatValue : Q -> string) : string :=
  "[" ++ formatValue (TreeLine.totalWeight line)
      ++ " (" ++ formatPercent (TreeLine.totalPercent line)
      ++ "), self: " ++ formatValue (TreeLine.selfWeight line)
      ++ " (" ++ formatPercent (TreeLine.selfPercent line) ++ ")]".

(** ** The aggregation over binary64 numbers

    The same code with a JavaScript [number] as what it is, an IEEE 754
    binary64 value: a [spec_float] of precision 53 and maximal exponent
    1024, with the operations of [SpecFloat], which round to nearest, ties to
    even.  [+=] is [add], [-] is [sub], [/] and [*] are [div] and [mul],
    [a >= b] is [ge a b], and a comparator result is negative when
    [negative] holds. *)
Module Double.
Import SpecFloat.

Definition number : Type := spec_float.

Definition add (a b : number) : number := SFadd 53 1024 a b.
Definition sub (a b : number) : number := SFsub 53 1024 a b.
Definition mul (a b : number) : number := SFmul 53 1024 a b.
Definition div (a b : number) : number := SFdiv 53 1024 a b.
Definition ge (a b : number) : bool := SFleb b a.
Definition eqb (a b : number) : bool := SFeqb a b.
Definition zero : number := S754_zero false.
Definition negative (x : number) : bool := SFltb x zero.

(** The rational a finite binary64 number stands for; 0 for the others. *)
Definition toQ (x : number) : Q :=
  match x with
  | S754_finite negative mantissa exponent =>
      let m := inject_Z (if negative then Z.neg mantissa else Z.pos mantissa) in
      if (0 <=? exponent)%Z then m * inject_Z (2 ^ exponent)
      else m / inject_Z (2 ^ (- exponent))
  | _ => 0
  end.

(** [x] is a binary64 number nearest to the rational [q]: it is in the
    format and at most half a unit in its last place away from [q].  This is
    how a decimal literal is read. *)
Definition nearest (x : number) (q : Q) : Prop :=
  match x with
  | S754_finite _ mantissa exponent =>
      bounded 53 1024 mantissa exponent = true
      /\ (2 ^ 52 <= Z.pos mantissa)%Z
      /\ Qabs (toQ x - q) <= toQ (S754_finite false 1 (exponent - 1))
  | _ => False
  end.

(** The literals 0.1, 0.2, 0.3, 0.5, 0.6 and 100. *)
Definition lit_0_1 : number := S754_finite false 7205759403792794 (-56).
Definition lit_0_2 : number := S754_finite false 7205759403792794 (-55).
Definition lit_0_3 : number := S754_finite false 5404319552844595 (-54).
Definition lit_0_5 : number := S754_finite false 4503599627370496 (-53).
Definition lit_0_6 : number := S754_finite false 5404319552844595 (-53).
Definition lit_100 : number := S754_finite false 7036874417766400 (-46).

(** [CallTreeNode] with binary64 weights. *)
Inductive CallTreeNode : Type :=
  mkNode {
    frame : Frame.t;
    isRoot : bool;
    getTotalWeight : number;
    getSelfWeight : number;
    children : list CallTreeNode
  }.

Module Weights.
Record t : Type := mk {
  totalWeight : number;
  selfWeight : number
}.
End Weights.

Module BottomsUpEntry.
Record t : Type := mk {
  frame : Frame.t;
  totalWeight : number;
  selfWeight : number;
  totalPercent : number;
  selfPercent : number
}.
End BottomsUpEntry.

Definition FrameMap : Type := list (Frame.t * Weights.t).

Fixpoint Map_get (m : FrameMap) (k : Frame.t) : option Weights.t :=
  match m with
  | [] => None
  | (k', v) :: rest => if Frame.eq_dec k' k then Some v else Map_get rest k
  end.

Fixpoint Map_set (m : FrameMap) (k : Frame.t) (v : Weights.t) : FrameMap :=
  match m with
  | [] => [(k, v)]
  | (k', v') :: rest =>
      if Frame.eq_dec k' k then (k', v) :: rest
      else (k', v') :: Map_set rest k v
  end.

(** Lines 120-130. *)
Definition accumulate (frameWeights : FrameMap) (n : CallTreeNode) : FrameMap :=
  match Map_get frameWeights (frame n) with
  | Some existing =>
      Map_set frameWeights (frame n)
        {| Weights.totalWeight :=
             add (Weights.totalWeight existing) (getTotalWeight n);
           Weights.selfWeight :=
             add (Weights.selfWeight existing) (getSelfWeight n) |}
  | None =>
      Map_set frameWeights (frame n)
        {| Weights.totalWeight := getTotalWeight n;
           Weights.selfWeight := getSelfWeight n |}
  end.

(** [walkSubtree] (lines 111-136). *)
Fixpoint walkSubtree (n : CallTreeNode) (frameWeights : FrameMap) : FrameMap :=
  if isRoot n then
    fold_left (fun frameWeights child => walkSubtree child frameWeights)
              (children n) frameWeights
  else
    let frameWeights := accumulate frameWeights n in
    fold_left (fun frameWeights child => walkSubtree child frameWeights)
              (children n) frameWeights.

(** [arr.sort(cmp)], stable, with a binary64 comparator. *)
Fixpoint sort_insert {A : Type} (cmp : A -> A -> number) (x : A)
         (sorted : list A) : list A :=
  match sorted with
  | [] => [x]
  | y :: rest =>
      if negative (cmp y x) then y :: sort_insert cmp x rest
      else x :: y :: rest
  end.

Fixpoint Array_sort {A : Type} (cmp : A -> A -> number) (arr : list A)
  : list A :=
  match arr with
  | [] => []
  | x :: rest => sort_insert cmp x (Array_sort cmp rest)
  end.

(** Lines 144-150. *)
Definition entryOf (totalWeight : number) (frame : Frame.t)
           (weights : Weights.t) : BottomsUpEntry.t :=
  {| BottomsUpEntry.frame := frame;
     BottomsUpEntry.totalWeight := Weights.totalWeight weights;
     BottomsUpEntry.selfWeight := Weights.selfWeight weights;
     BottomsUpEntry.totalPercent :=
       mul (div (Weights.totalWeight weights) totalWeight) lit_100;
     BottomsUpEntry.selfPercent :=
       mul (div (Weights.selfWeight weights) totalWeight) lit_100 |}.

(** [buildBottomsUpEntries] (lines 102-158). *)
Definition buildBottomsUpEntries (node : CallTreeNode)
           (totalWeight minSelfWeight : number) : list BottomsUpEntry.t :=
  let frameWeights := walkSubtree node [] in
  let entries :=
    fold_left
      (fun entries binding =>
         let '(frame, weights) := binding in
         if ge (Weights.selfWeight weights) minSelfWeight
         then push entries [entryOf totalWeight frame weights]
         else entries)
      frameWeights [] in
  Array_sort
    (fun a b => sub (BottomsUpEntry.selfWeight b) (BottomsUpEntry.selfWeight a))
    entries.

(** The nodes of a subtree, and the weight model computed as the program
    computes: a node's total weight is its self weight plus the sum of its
    children's total weights, and a root has no self weight. *)
Fixpoint nodes (n : CallTreeNode) : list CallTreeNode :=
  n :: flat_map nodes (children n).

Definition weightModelAt (n : CallTreeNode) : Prop :=
  eqb (getTotalWeight n)
      (add (getSelfWeight n)
           (fold_left add (map getTotalWeight (children n)) zero))
  = true
  /\ (isRoot n = true -> eqb (getSelfWeight n) zero = true).

Definition weightModel (start : CallTreeNode) : Prop :=
  Forall weightModelAt (nodes start).



End Double.

(** root -> B(total=100, self=99.5) -> T(total=0.5, self=0.25)
    -> T(total=0.25, self=0.25): a frame met twice whose merged self weight
    stays below one percent of the profile. *)
Definition frameT : Frame.t := frameOf 6 "T".
Definition smallInner : CallTreeNode := mkNode frameT false (1 # 4) (1 # 4) [].
Definition smallOuter : CallTreeNode :=
  mkNode frameT false (1 # 2) (1 # 4) [smallInner].
Definition smallRoot : CallTreeNode :=
  rootOf 100 [mkNode frameB false 100 (199 # 2) [smallOuter]].

(** ** The context menu (class ContextMenu) *)

Module ContextMenu.
(** [Math.min(a, b)]. *)
Definition Math_min (a b : Q) : Q := if Qle_bool a b then a else b.

(** The placement computed by [render] (lines 89-93); [count] is
    [items.length], [x] and [y] are the props, [innerWidth] and
    [innerHeight] those of the window. *)
Definition menuWidth : Q := 180.

Definition menuHeight (count : nat) : Q := inject_Z (Z.of_nat count) * 30 + 8.

Definition adjustedX (x innerWidth : Q) : Q :=
  Math_min x (innerWidth - menuWidth - 10).

Definition adjustedY (count : nat) (y innerHeight : Q) : Q :=
  Math_min y (innerHeight - menuHeight count - 10).

(** Event listeners.  The three handlers are arrow-function properties, so
    each component instance owns one function object per handler: a callback
    is the instance together with the handler.  A listener is a target, an
    event type and a callback; [addEventListener] ignores a listener that is
    already registered and [removeEventListener] removes the registered one
    that matches. *)
Inductive eventTarget : Type := document | window.

Inductive handler : Type := handleClickOutside | handleKeyDown | handleClose.

Record listener : Type := mkListener {
  target : eventTarget;
  kind : string;
  owner : nat;
  callback : handler
}.

Definition listener_eq_dec (a b : listener) : {a = b} + {a <> b}.
Proof.
  decide equality; try apply Nat.eq_dec; try apply string_dec;
    decide equality.
Defined.

Fixpoint addEventListener (l : listener) (registered : list listener)
  : list listener :=
  match registered with
  | [] => [l]
  | x :: rest =>
      if listener_eq_dec x l then x :: rest
      else x :: addEventListener l rest
  end.

Fixpoint removeEventListener (l : listener) (registered : list listener)
  : list listener :=
  match registered with
  | [] => []
  | x :: rest =>
      if listener_eq_dec x l then rest
      else x :: removeEventListener l rest
  end.

(** [componentDidMount] (lines 24-29) and [componentWillUnmount] (lines
    31-35) of the instance [this]. *)
Definition componentDidMount (this : nat) (registered : list listener)
  : list listener :=
  let registered :=
    addEventListener (mkListener document "mousedown" this handleClickOutside)
                     registered in
  let registered :=
    addEventListener (mkListener document "keydown" this handleKeyDown)
                     registered in
  addEventListener (mkListener window "blur" this handleClose) registered.

Definition componentWillUnmount (this : nat) (registered : list listener)
  : list listener :=
  let registered :=
    removeEventListener (mkListener document "mousedown" this handleClickOutside)
                        registered in
  let registered :=
    removeEventListener (mkListener document "keydown" this handleKeyDown)
                        registered in
  removeEventListener (mkListener window "blur" this handleClose) registered.
End ContextMenu.

(** * Properties *)

(** ** Induction on call trees *)

Lemma CallTreeNode_tree_ind (P : CallTreeNode -> Prop) :
  (forall n, Forall P (children n) -> P n) -> forall n, P n.
Proof.
  intros step.
  fix IH 1.
  intros [f r t s kids]. apply step. simpl.
  induction kids as [|k kids IHkids]; constructor.
  - apply IH.
  - exact IHkids.
Qed.

(** ** Arrays *)

Section ArrayFacts.
Context {A : Type}.

Lemma sort_insert_perm (cmp : A -> A -> Q) (x : A) (l : list A) :
  Permutation (sort_insert cmp x l) (x :: l).
Proof.
  induction l as [|y l IH]; simpl.
  - apply Permutation_refl.
  - destruct (Qneg_bool (cmp y x)).
    + eapply perm_trans; [apply perm_skip, IH | apply perm_swap].
    + apply Permutation_refl.
Qed.

Lemma Array_sort_perm (cmp : A -> A -> Q) (l : list A) :
  Permutation (Array_sort cmp l) l.
Proof.
  induction l as [|x l IH]; simpl.
  - apply perm_nil.
  - eapply perm_trans; [apply sort_insert_perm | apply perm_skip, IH].
Qed.

Lemma Array_sort_In (cmp : A -> A -> Q) (l : list A) (x : A) :
  In x (Array_sort cmp l) <-> In x l.
Proof.
  split; apply Permutation_in;
    [apply Array_sort_perm | apply Permutation_sym, Array_sort_perm].
Qed.

Lemma forEach_from_ext {S : Type} (f g : A -> nat -> S -> S) (l : list A) :
  (forall x i s, In x l -> f x i s = g x i s) ->
  forall i s, forEach_from f l i s = forEach_from g l i s.
Proof.
  induction l as [|x l IH]; intros Hfg i s; simpl.
  - reflexivity.
  - rewrite (Hfg x i s) by (left; reflexivity).
    apply IH. intros y j t Hy. apply Hfg. right. exact Hy.
Qed.

(** A loop whose body only pushes rows appends the rows of every element. *)
Lemma forEach_from_rows {B : Type} (rows : A -> nat -> list B) (l : list A) :
  forall i s,
    forEach_from (fun x i acc => push acc (rows x i)) l i s
    = push s (forEach_from (fun x i acc => push acc (rows x i)) l i []).
Proof.
  induction l as [|x l IH]; intros i s; cbn [forEach_from].
  - unfold push. now rewrite app_nil_r.
  - rewrite (IH (S i) (push s (rows x i))).
    rewrite (IH (S i) (push [] (rows x i))).
    unfold push. simpl. now rewrite app_assoc.
Qed.

Lemma forEach_from_push {B : Type} (f : A -> nat -> list B -> list B)
      (rows : A -> nat -> list B) (l : list A) :
  (forall x i s, In x l -> f x i s = push s (rows x i)) ->
  forall i s,
    forEach_from f l i s
    = push s (forEach_from (fun x i acc => push acc (rows x i)) l i []).
Proof.
  intros Hf i s.
  rewrite (forEach_from_ext f (fun x i acc => push acc (rows x i)) l Hf).
  apply forEach_from_rows.
Qed.

End ArrayFacts.

(** With a comparator that subtracts keys, [Array_sort] does sort: the keys
    of the result never increase. *)
Section SortFacts.
Context {A : Type} (key : A -> Q).

Lemma sort_insert_HdRel (x y : A) (l : list A) :
  descending key y x -> HdRel (descending key) y l ->
  HdRel (descending key) y (sort_insert (fun a b => key b - key a) x l).
Proof.
  intros Hyx Hl. destruct l as [|z l]; cbn [sort_insert].
  - now constructor.
  - inversion Hl; subst. destruct (Qneg_bool (key x - key z)); now constructor.
Qed.

Lemma sort_insert_Sorted (x : A) (l : list A) :
  Sorted (descending key) l ->
  Sorted (descending key) (sort_insert (fun a b => key b - key a) x l).
Proof.
  induction 1 as [|y l Hsorted IH Hhd]; cbn [sort_insert].
  - repeat constructor.
  - unfold Qneg_bool. destruct (Qle_bool 0 (key x - key y)) eqn:Hcmp; cbn [negb].
    + apply Qle_bool_iff in Hcmp. constructor; [now constructor|].
      constructor. unfold descending. now apply Qle_minus_iff.
    + assert (Hlt : key x < key y).
      { apply Qnot_le_lt. intros Hle. apply Qle_minus_iff in Hle.
        apply Qle_bool_iff in Hle. unfold Qminus in Hcmp. congruence. }
      constructor; [exact IH|].
      apply sort_insert_HdRel; [|exact Hhd].
      unfold descending. now apply Qlt_le_weak.
Qed.

Lemma Array_sort_Sorted (l : list A) :
  Sorted (descending key) (Array_sort (fun a b => key b - key a) l).
Proof.
  induction l as [|x l IH]; cbn [Array_sort].
  - constructor.
  - now apply sort_insert_Sorted.
Qed.
End SortFacts.

Lemma sort_insert_map {A B : Type} (g : A -> B) (cmp : A -> A -> Q)
      (cmp' : B -> B -> Q) (x : A) (l : list A) :
  (forall a b, cmp' (g a) (g b) = cmp a b) ->
  sort_insert cmp' (g x) (map g l) = map g (sort_insert cmp x l).
Proof.
  intros Hcmp. induction l as [|y l IH]; simpl.
  - reflexivity.
  - rewrite Hcmp. destruct (Qneg_bool (cmp y x)); simpl.
    + now rewrite IH.
    + reflexivity.
Qed.

Lemma Array_sort_map {A B : Type} (g : A -> B) (cmp : A -> A -> Q)
      (cmp' : B -> B -> Q) (l : list A) :
  (forall a b, cmp' (g a) (g b) = cmp a b) ->
  Array_sort cmp' (map g l) = map g (Array_sort cmp l).
Proof.
  intros Hcmp. induction l as [|x l IH]; simpl.
  - reflexivity.
  - rewrite IH. now apply sort_insert_map.
Qed.

Lemma filter_map_comm {A B : Type} (g : A -> B) (p : A -> bool)
      (p' : B -> bool) (l : list A) :
  (forall a, p' (g a) = p a) ->
  filter p' (map g l) = map g (filter p l).
Proof.
  intros Hp. induction l as [|x l IH]; simpl.
  - reflexivity.
  - rewrite Hp, IH. now destruct (p x).
Qed.

Lemma forEach_from_map {A B S : Type} (g : A -> B) (f : B -> nat -> S -> S)
      (l : list A) (i : nat) (s : S) :
  forEach_from f (map g l) i s = forEach_from (fun x => f (g x)) l i s.
Proof.
  revert i s. induction l as [|x l IH]; intros i s; simpl.
  - reflexivity.
  - apply IH.
Qed.

(** ** The recursion of the tree renderer *)

Lemma selected_paired (minWeight : Q) (node : CallTreeNode) :
  Array_sort byTotalDesc
    (filter (heavyEnough minWeight)
       (map (fun child => (child, buildTreeLines child)) (children node)))
  = map (fun child => (child, buildTreeLines child))
        (selectedChildren minWeight node).
Proof.
  unfold selectedChildren.
  rewrite (filter_map_comm (fun child => (child, buildTreeLines child))
             (fun child => Qge_bool (getTotalWeight child) minWeight))
    by reflexivity.
  apply Array_sort_map. reflexivity.
Qed.

(** [buildTreeLines] obeys the recursion written in the source. *)
Lemma buildTreeLines_unfold (node : CallTreeNode) (totalWeight minWeight : Q)
      (lines : list TreeLine.t) (prefix : string) (isLast isRootArg : bool) :
  buildTreeLines node totalWeight minWeight lines prefix isLast isRootArg
  = let children := selectedChildren minWeight node in
    if isRoot node then
      forEach children
        (fun child index lines =>
           buildTreeLines child totalWeight minWeight lines ""
             (index =? List.length children - 1)%nat true)
        lines
    else
      let connector :=
        if isRootArg then "" else if isLast then "└─ " else "├─ " in
      let indent := prefix ++ connector in
      let lines := push lines [treeLineOf node totalWeight indent] in
      let childPrefix :=
        prefix ++ (if isRootArg then "" else if isLast then "   " else "│  ") in
      forEach children
        (fun child index lines =>
           buildTreeLines child totalWeight minWeight lines childPrefix
             (index =? List.length children - 1)%nat false)
        lines.
Proof.
  destruct node as [f r t s kids].
  cbn [buildTreeLines].
  rewrite (selected_paired minWeight (mkNode f r t s kids)).
  cbv zeta. unfold forEach.
  rewrite length_map, !forEach_from_map.
  reflexivity.
Qed.

Lemma selectedChildren_In (minWeight : Q) (node c : CallTreeNode) :
  In c (selectedChildren minWeight node) <->
  In c (children node) /\ minWeight <= getTotalWeight c.
Proof.
  unfold selectedChildren.
  rewrite Array_sort_In, filter_In. unfold Qge_bool.
  now rewrite Qle_bool_iff.
Qed.

(** The lines a call pushes do not depend on the lines already there. *)
Lemma buildTreeLines_push (node : CallTreeNode) :
  forall totalWeight minWeight lines prefix isLast isRootArg,
    buildTreeLines node totalWeight minWeight lines prefix isLast isRootArg
    = push lines
        (buildTreeLines node totalWeight minWeight [] prefix isLast isRootArg).
Proof.
  induction node as [node IH] using CallTreeNode_tree_ind.
  intros totalWeight minWeight lines prefix isLast isRootArg.
  rewrite Forall_forall in IH.
  assert (Hkids : forall pre flag x i s,
             In x (selectedChildren minWeight node) ->
             buildTreeLines x totalWeight minWeight s pre
               (i =? List.length (selectedChildren minWeight node) - 1)%nat flag
             = push s (buildTreeLines x totalWeight minWeight [] pre
                 (i =? List.length (selectedChildren minWeight node) - 1)%nat flag)).
  { intros pre flag x i s Hx. apply IH.
    now apply selectedChildren_In in Hx. }
  rewrite !(buildTreeLines_unfold node). cbv zeta. unfold forEach.
  destruct (isRoot node).
  - rewrite (forEach_from_push _ _ _ (Hkids "" true) 0%nat lines).
    rewrite (forEach_from_push _ _ _ (Hkids "" true) 0%nat []).
    reflexivity.
  - rewrite (forEach_from_push _ _ _ (Hkids _ false) 0%nat (push lines _)).
    rewrite (forEach_from_push _ _ _ (Hkids _ false) 0%nat (push [] _)).
    unfold push. simpl. now rewrite <- app_assoc.
Qed.

Lemma flat_map_filter {A B : Type} (p : A -> bool) (h : A -> list B)
      (l : list A) :
  flat_map h (filter p l) = flat_map (fun x => if p x then h x else []) l.
Proof.
  induction l as [|x l IH]; simpl.
  - reflexivity.
  - destruct (p x); simpl; now rewrite IH.
Qed.

Lemma visibleNodes_unfold (minWeight : Q) (node : CallTreeNode) :
  Permutation
    (visibleNodes minWeight node)
    ((if isRoot node then [] else [node])
     ++ flat_map (visibleNodes minWeight) (selectedChildren minWeight node))%list.
Proof.
  destruct node as [f r t s kids]. cbn [visibleNodes isRoot children].
  apply Permutation_app_head. unfold selectedChildren. cbn [children].
  rewrite <- (flat_map_filter
                (fun child => Qge_bool (getTotalWeight child) minWeight)
                (visibleNodes minWeight)).
  apply Permutation_flat_map, Permutation_sym, Array_sort_perm.
Qed.

Lemma forEach_from_flat {A B C : Type} (rows : A -> nat -> list B)
      (g : B -> C) (h : A -> list C) (l : list A) :
  (forall x i, In x l -> Permutation (map g (rows x i)) (h x)) ->
  forall i,
    Permutation
      (map g (forEach_from (fun x i acc => push acc (rows x i)) l i []))
      (flat_map h l).
Proof.
  induction l as [|x l IH]; intros Hrows i; cbn [forEach_from flat_map].
  - apply perm_nil.
  - rewrite forEach_from_rows. unfold push at 1 2. cbn [app].
    rewrite map_app. apply Permutation_app.
    + apply Hrows. now left.
    + apply IH. intros; apply Hrows; now right.
Qed.

(** Up to the order of siblings, the lines pushed are those of the visible
    nodes. *)
Lemma buildTreeLines_nodes (node : CallTreeNode) :
  forall totalWeight minWeight prefix isLast isRootArg,
    Permutation
      (map unindent
         (buildTreeLines node totalWeight minWeight [] prefix isLast isRootArg))
      (map (fun n => treeLineOf n totalWeight "")
           (visibleNodes minWeight node)).
Proof.
  induction node as [node IH] using CallTreeNode_tree_ind.
  intros totalWeight minWeight prefix isLast isRootArg.
  rewrite Forall_forall in IH.
  rewrite (Permutation_map _ (visibleNodes_unfold minWeight node)).
  assert (Hpush : forall pre flag x i s,
             In x (selectedChildren minWeight node) ->
             buildTreeLines x totalWeight minWeight s pre
               (i =? List.length (selectedChildren minWeight node) - 1)%nat flag
             = push s (buildTreeLines x totalWeight minWeight [] pre
                 (i =? List.length (selectedChildren minWeight node) - 1)%nat flag))
    by (intros; apply buildTreeLines_push).
  assert (Hrec : forall pre flag x i,
             In x (selectedChildren minWeight node) ->
             Permutation
               (map unindent
                  (buildTreeLines x totalWeight minWeight [] pre
                     (i =? List.length (selectedChildren minWeight node) - 1)%nat
                     flag))
               (map (fun n => treeLineOf n totalWeight "")
                    (visibleNodes minWeight x))).
  { intros pre flag x i Hx. apply selectedChildren_In in Hx.
    apply (IH x (proj1 Hx)). }
  rewrite (buildTreeLines_unfold node). cbv zeta. unfold forEach.
  rewrite map_app, flat_map_concat_map, concat_map, map_map,
    <- flat_map_concat_map.
  destruct (isRoot node).
  - rewrite (forEach_from_push _ _ _ (Hpush "" true) 0%nat []).
    unfold push at 1. cbn [app map].
    apply (forEach_from_flat _ _ _ _ (Hrec "" true)).
  - rewrite (forEach_from_push _ _ _ (Hpush _ false) 0%nat (push [] _)).
    unfold push at 1 2. cbn [app map]. apply perm_skip.
    apply (forEach_from_flat _ _ _ _ (Hrec _ false)).
Qed.

Lemma buildTreeLines_length (node : CallTreeNode) :
  forall totalWeight minWeight lines prefix isLast isRootArg,
    List.length
      (buildTreeLines node totalWeight minWeight lines prefix isLast isRootArg)
    = (List.length lines + List.length (visibleNodes minWeight node))%nat.
Proof.
  intros totalWeight minWeight lines prefix isLast isRootArg.
  rewrite buildTreeLines_push. unfold push. rewrite length_app. f_equal.
  rewrite <- (length_map unindent).
  rewrite (Permutation_length
             (buildTreeLines_nodes node totalWeight minWeight prefix isLast
                isRootArg)).
  apply length_map.
Qed.

(** ** Subtrees *)

Lemma nodes_unfold (n : CallTreeNode) :
  nodes n = n :: flat_map nodes (children n).
Proof. now destruct n. Qed.

Lemma filter_flat_map {A B : Type} (p : B -> bool) (h : A -> list B)
      (l : list A) :
  filter p (flat_map h l) = flat_map (fun x => filter p (h x)) l.
Proof.
  induction l as [|x l IH]; simpl.
  - reflexivity.
  - now rewrite filter_app, IH.
Qed.

Lemma visited_unfold (n : CallTreeNode) :
  visited n
  = ((if isRoot n then [] else [n]) ++ flat_map visited (children n))%list.
Proof.
  unfold visited at 1. rewrite nodes_unfold. cbn [filter].
  rewrite filter_flat_map. now destruct (isRoot n).
Qed.

Lemma nodes_child (P : CallTreeNode -> Prop) (n c : CallTreeNode) :
  Forall P (nodes n) -> In c (children n) -> Forall P (nodes c).
Proof.
  rewrite nodes_unfold. intros HP Hc. inversion HP as [|? ? _ Hkids]; subst.
  rewrite Forall_forall in *. intros x Hx. apply Hkids.
  apply in_flat_map. exists c. now split.
Qed.

Lemma nodes_self (P : CallTreeNode -> Prop) (n : CallTreeNode) :
  Forall P (nodes n) -> P n.
Proof. rewrite nodes_unfold. intros HP. now inversion HP. Qed.

Lemma visited_In (start n : CallTreeNode) :
  In n (visited start) <-> In n (nodes start) /\ isRoot n = false.
Proof.
  unfold visited. rewrite filter_In. now rewrite negb_true_iff.
Qed.

Lemma flat_map_ext_in {A B : Type} (f g : A -> list B) (l : list A) :
  (forall x, In x l -> f x = g x) -> flat_map f l = flat_map g l.
Proof.
  induction l as [|x l IH]; intros Hfg; simpl.
  - reflexivity.
  - rewrite (Hfg x) by now left. f_equal. apply IH.
    intros; apply Hfg; now right.
Qed.

(** Every visible node is a node of the subtree for which [isRoot()] does
    not hold. *)
Lemma visibleNodes_visited (minWeight : Q) (start : CallTreeNode) :
  incl (visibleNodes minWeight start) (visited start).
Proof.
  induction start as [start IH] using CallTreeNode_tree_ind.
  rewrite Forall_forall in IH.
  rewrite visited_unfold. destruct start as [f r t s kids].
  cbn [visibleNodes isRoot children] in *.
  apply incl_app_app; [apply incl_refl|].
  intros x Hx. apply in_flat_map in Hx. destruct Hx as [c [Hc Hx]].
  apply in_flat_map. exists c. split; [exact Hc|].
  destruct (Qge_bool (getTotalWeight c) minWeight); [|contradiction].
  now apply (IH c Hc).
Qed.

(** A threshold that every total weight reaches hides nothing. *)
Lemma visibleNodes_all (minWeight : Q) (start : CallTreeNode) :
  Forall (fun n => minWeight <= getTotalWeight n) (nodes start) ->
  visibleNodes minWeight start = visited start.
Proof.
  induction start as [start IH] using CallTreeNode_tree_ind.
  rewrite Forall_forall in IH. intros Hall.
  rewrite visited_unfold.
  assert (Hkids : forall c, In c (children start) ->
             (if Qge_bool (getTotalWeight c) minWeight
              then visibleNodes minWeight c else []) = visited c).
  { intros c Hc.
    pose proof (nodes_child _ _ _ Hall Hc) as Hsub.
    pose proof (nodes_self _ _ Hsub) as Hle. cbv beta in Hle.
    unfold Qge_bool. apply Qle_bool_iff in Hle. rewrite Hle.
    now apply IH. }
  destruct start as [f r t s kids]. cbn [visibleNodes isRoot children] in *.
  f_equal. now apply flat_map_ext_in.
Qed.

Lemma list_sum_le {A : Type} (f g : A -> nat) (l : list A) :
  (forall x, In x l -> (f x <= g x)%nat) ->
  (list_sum (map f l) <= list_sum (map g l))%nat.
Proof.
  induction l as [|x l IH]; intros Hfg; simpl.
  - apply Nat.le_refl.
  - apply Nat.add_le_mono.
    + apply Hfg. now left.
    + apply IH. intros; apply Hfg; now right.
Qed.

(** Raising the threshold hides nodes, it never reveals any. *)
Lemma visibleNodes_monotone (t1 t2 : Q) (start : CallTreeNode) :
  t1 <= t2 ->
  (List.length (visibleNodes t2 start) <= List.length (visibleNodes t1 start))%nat.
Proof.
  intros Hle.
  induction start as [start IH] using CallTreeNode_tree_ind.
  rewrite Forall_forall in IH.
  destruct start as [f r t s kids]. cbn [visibleNodes isRoot children] in *.
  rewrite !length_app, !length_flat_map.
  apply Nat.add_le_mono_l, list_sum_le.
  intros c Hc. unfold Qge_bool.
  destruct (Qle_bool t2 (getTotalWeight c)) eqn:H2.
  - assert (H1 : Qle_bool t1 (getTotalWeight c) = true).
    { apply Qle_bool_iff. apply Qle_bool_iff in H2.
      now apply Qle_trans with t2. }
    rewrite H1. now apply IH.
  - apply Nat.le_0_l.
Qed.

(** ** The aggregation as a fold over the visited nodes *)

Lemma walkSubtree_fold (n : CallTreeNode) :
  forall frameWeights,
    walkSubtree n frameWeights = fold_left accumulate (visited n) frameWeights.
Proof.
  induction n as [n IH] using CallTreeNode_tree_ind.
  intros frameWeights. rewrite visited_unfold, fold_left_app.
  assert (Hkids : forall kids m,
             Forall (fun c => forall fw,
                         walkSubtree c fw = fold_left accumulate (visited c) fw)
                    kids ->
             fold_left (fun fw child => walkSubtree child fw) kids m
             = fold_left accumulate (flat_map visited kids) m).
  { induction kids as [|k kids IHkids]; intros m Hall; simpl.
    - reflexivity.
    - inversion Hall as [|? ? Hk Hrest]; subst.
      rewrite fold_left_app, <- Hk. now apply IHkids. }
  destruct n as [f r t s kids]. cbn [walkSubtree isRoot children] in *.
  destruct r; cbn [fold_left]; now apply Hkids.
Qed.

Lemma accumulate_nil (n : CallTreeNode) :
  accumulate [] n = [(frame n, merge None n)].
Proof. reflexivity. Qed.

Lemma accumulate_cons (k : Frame.t) (v : Weights.t) (m : FrameMap)
      (n : CallTreeNode) :
  accumulate ((k, v) :: m) n
  = if Frame.eq_dec k (frame n) then (k, merge (Some v) n) :: m
    else (k, v) :: accumulate m n.
Proof.
  unfold accumulate. cbn [Map_get Map_set].
  destruct (Frame.eq_dec k (frame n)) as [Heq|Hne].
  - cbn [Map_set]. destruct (Frame.eq_dec k (frame n)); [reflexivity|contradiction].
  - destruct (Map_get m (frame n)); cbn [Map_set];
      destruct (Frame.eq_dec k (frame n)); try contradiction; reflexivity.
Qed.

Lemma Map_get_accumulate (m : FrameMap) (n : CallTreeNode) (f : Frame.t) :
  Map_get (accumulate m n) f
  = if hasFrame f n then Some (merge (Map_get m f) n) else Map_get m f.
Proof.
  unfold hasFrame, Frame.eqb.
  induction m as [|[k v] m IH].
  - rewrite accumulate_nil. cbn [Map_get].
    destruct (Frame.eq_dec (frame n) f); reflexivity.
  - rewrite accumulate_cons.
    destruct (Frame.eq_dec k (frame n)) as [Hk|Hk]; cbn [Map_get].
    + subst k. destruct (Frame.eq_dec (frame n) f); reflexivity.
    + rewrite IH.
      destruct (Frame.eq_dec k f) as [Hkf|Hkf];
        destruct (Frame.eq_dec (frame n) f) as [Hnf|Hnf];
        try reflexivity.
      congruence.
Qed.

(** What a frame is bound to after a walk: the merge of its occurrences, in
    the order of the visit. *)
Lemma Map_get_fold (l : list CallTreeNode) (f : Frame.t) :
  forall m,
    Map_get (fold_left accumulate l m) f
    = fold_left (fun w n => Some (merge w n)) (filter (hasFrame f) l)
                (Map_get m f).
Proof.
  induction l as [|n l IH]; intros m; cbn [fold_left filter].
  - reflexivity.
  - rewrite IH, Map_get_accumulate.
    destruct (hasFrame f n); reflexivity.
Qed.

Lemma Map_get_walk (start : CallTreeNode) (f : Frame.t) :
  Map_get (walkSubtree start []) f
  = aggregate (filter (hasFrame f) (visited start)).
Proof. rewrite walkSubtree_fold. apply Map_get_fold. Qed.

Lemma accumulate_keys_In (m : FrameMap) (n : CallTreeNode) (f : Frame.t) :
  In f (keys (accumulate m n)) <-> In f (keys m) \/ f = frame n.
Proof.
  unfold keys. induction m as [|[k v] m IH].
  - rewrite accumulate_nil. simpl. intuition.
  - rewrite accumulate_cons.
    destruct (Frame.eq_dec k (frame n)) as [Hk|Hk]; simpl in *.
    + subst k. intuition.
    + rewrite IH. intuition.
Qed.

Lemma accumulate_NoDup (m : FrameMap) (n : CallTreeNode) :
  NoDup (keys m) -> NoDup (keys (accumulate m n)).
Proof.
  induction m as [|[k v] m IH]; intros Hm.
  - rewrite accumulate_nil. repeat constructor. intros [].
  - rewrite accumulate_cons. inversion Hm as [|? ? Hk Hrest]; subst.
    destruct (Frame.eq_dec k (frame n)) as [Heq|Hne].
    + exact Hm.
    + unfold keys in *. simpl. constructor.
      * intros Hin. apply (accumulate_keys_In m n k) in Hin.
        destruct Hin as [Hin|Hin]; [now apply Hk | now apply Hne].
      * now apply IH.
Qed.

Lemma fold_accumulate_NoDup (l : list CallTreeNode) :
  forall m, NoDup (keys m) -> NoDup (keys (fold_left accumulate l m)).
Proof.
  induction l as [|n l IH]; intros m Hm; cbn [fold_left].
  - exact Hm.
  - apply IH. now apply accumulate_NoDup.
Qed.

Lemma walkSubtree_NoDup (start : CallTreeNode) :
  NoDup (keys (walkSubtree start [])).
Proof.
  rewrite walkSubtree_fold. apply fold_accumulate_NoDup. constructor.
Qed.


(** ** From the map to the entries *)

Lemma entries_loop (totalWeight minSelfWeight : Q) (m : FrameMap) :
  forall entries,
    fold_left
      (fun entries binding =>
         let '(frame, weights) := binding in
         if Qge_bool (Weights.selfWeight weights) minSelfWeight
         then push entries [entryOf totalWeight frame weights]
         else entries)
      m entries
    = (entries
       ++ map (entryOfBinding totalWeight) (filter (passes minSelfWeight) m))%list.
Proof.
  induction m as [|[f w] m IH]; intros entries; cbn [fold_left filter].
  - cbn [map]. now rewrite app_nil_r.
  - rewrite IH.
    change (passes minSelfWeight (f, w))
      with (Qge_bool (Weights.selfWeight w) minSelfWeight).
    destruct (Qge_bool (Weights.selfWeight w) minSelfWeight).
    + unfold push. cbn [map]. now rewrite <- app_assoc.
    + reflexivity.
Qed.

Lemma buildBottomsUpEntries_eq (node : CallTreeNode)
      (totalWeight minSelfWeight : Q) :
  buildBottomsUpEntries node totalWeight minSelfWeight
  = Array_sort bySelfDesc
      (map (entryOfBinding totalWeight)
           (filter (passes minSelfWeight) (walkSubtree node []))).
Proof.
  unfold buildBottomsUpEntries. cbv zeta. now rewrite entries_loop.
Qed.

Lemma Map_get_In (m : FrameMap) (f : Frame.t) (w : Weights.t) :
  NoDup (keys m) -> (In (f, w) m <-> Map_get m f = Some w).
Proof.
  unfold keys. induction m as [|[k v] m IH]; intros Hm; cbn [Map_get].
  - split; [intros [] | discriminate].
  - inversion Hm as [|? ? Hk Hrest]; subst.
    destruct (Frame.eq_dec k f) as [Heq|Hne].
    + subst k. split.
      * intros [Hhead|Htail]; [congruence|].
        exfalso. apply Hk. apply in_map_iff. now exists (f, w).
      * intros Hsome. left. congruence.
    + rewrite <- (IH Hrest). split.
      * intros [Hhead|Htail]; [congruence | exact Htail].
      * intros Htail. now right.
Qed.

(** The entries come heaviest self weight first. *)
Lemma buildBottomsUpEntries_Sorted (node : CallTreeNode)
      (totalWeight minSelfWeight : Q) :
  Sorted (descending BottomsUpEntry.selfWeight)
         (buildBottomsUpEntries node totalWeight minSelfWeight).
Proof.
  rewrite buildBottomsUpEntries_eq.
  apply (Array_sort_Sorted BottomsUpEntry.selfWeight).
Qed.

(** An entry of the result is a binding of the map that passes the filter. *)
Lemma buildBottomsUpEntries_In (node : CallTreeNode)
      (totalWeight minSelfWeight : Q) (e : BottomsUpEntry.t) :
  In e (buildBottomsUpEntries node totalWeight minSelfWeight)
  <-> exists f w,
        Map_get (walkSubtree node []) f = Some w
        /\ minSelfWeight <= Weights.selfWeight w
        /\ e = entryOf totalWeight f w.
Proof.
  rewrite buildBottomsUpEntries_eq, Array_sort_In, in_map_iff. split.
  - intros [[f w] [He Hin]]. apply filter_In in Hin. destruct Hin as [Hin Hp].
    exists f, w. repeat split.
    + now apply Map_get_In; [apply walkSubtree_NoDup|].
    + now apply Qle_bool_iff.
    + now symmetry.
  - intros [f [w [Hget [Hle He]]]]. exists (f, w). split; [now symmetry|].
    apply filter_In. split.
    + now apply Map_get_In; [apply walkSubtree_NoDup|].
    + now apply Qle_bool_iff.
Qed.

(** ** Sums of weights *)











Lemma forEach_from_concat {A B : Type} (rows : A -> nat -> list B)
      (l : list A) :
  forall i,
    forEach_from (fun x i acc => push acc (rows x i)) l i []
    = List.concat (mapi_from rows l i).
Proof.
  induction l as [|x l IH]; intros i; cbn [forEach_from mapi_from List.concat].
  - reflexivity.
  - rewrite forEach_from_rows, IH. reflexivity.
Qed.

(** ** The generators produce the layout *)

Section ReportLayout.
Variable formatPercent : Q -> string.

Lemma pushEach_rows {A : Type} (rows : A -> list string) (arr : list A) :
  forall output, pushEach rows arr output = (output ++ flat_map rows arr)%list.
Proof.
  unfold pushEach.
  induction arr as [|x arr IH]; intros output; cbn [fold_left flat_map].
  - now rewrite app_nil_r.
  - rewrite IH. unfold push. now rewrite <- app_assoc.
Qed.

(** The single-subtree report, section by section. *)
Lemma generateTreeSummary_layout (options : TreeSummaryOptions.t) :
  let node := TreeSummaryOptions.node options in
  let totalWeight := TreeSummaryOptions.totalWeight options in
  let formatValue := TreeSummaryOptions.formatValue options in
  let entries :=
    buildBottomsUpEntries node totalWeight (totalWeight * (1 # 100)) in
  let lines :=
    buildTreeLines node totalWeight
      (selectionWeight node totalWeight * (1 # 100)) [] "" true true in
  generateTreeSummary formatPercent options
  = match entries, lines with
    | [], [] => NO_DATA
    | _, _ =>
        join LF
          (summaryHeader
           ++ selectedBlock formatPercent node totalWeight formatValue
           ++ bottomsUpSection formatPercent formatValue entries
           ++ callTreeSection formatPercent
                "Call Tree (callees, >=1% of selection):" formatValue lines
           ++ summaryFooter totalWeight formatValue)%list
    end.
Proof.
  destruct options as [node totalWeight formatValue].
  unfold generateTreeSummary. cbn [TreeSummaryOptions.node
    TreeSummaryOptions.totalWeight TreeSummaryOptions.formatValue].
  cbv zeta. fold (selectionWeight node totalWeight).
  change MIN_WEIGHT_THRESHOLD with (1 # 100).
  generalize (buildBottomsUpEntries node totalWeight (totalWeight * (1 # 100))).
  generalize (buildTreeLines node totalWeight
                (selectionWeight node totalWeight * (1 # 100)) [] "" true true).
  intros lines entries.
  rewrite !pushEach_rows. unfold selectedBlock, summaryFooter, summaryHeader, push.
  destruct entries as [|e entries]; destruct lines as [|l lines];
    cbn [List.length Nat.ltb Nat.leb Nat.eqb andb bottomsUpSection
           callTreeSection negb];
    try reflexivity;
    destruct (isRoot node); cbn [negb];
    try destruct (locationOf _ _ _);
    f_equal; cbn [app]; rewrite <- ?app_assoc; reflexivity.
Qed.
End ReportLayout.

Section ProfilesLayout.
Variable formatPercent : Q -> string.

Lemma profileBlock_rows (count : nat) (info : ProfileInfo.t) (i : nat)
      (output : list string) :
  profileBlock formatPercent count info i output
  = push output (profileRows formatPercent count info i).
Proof.
  destruct info as [name [root totalWeight formatValue]].
  unfold profileBlock, profileRows, profileSections, profileSubHeader.
  cbn [ProfileInfo.name ProfileInfo.profile Profile.getGroupedCalltreeRoot
         Profile.getTotalNonIdleWeight Profile.formatValue].
  cbv zeta. change MIN_WEIGHT_THRESHOLD with (1 # 100).
  generalize (buildBottomsUpEntries root totalWeight (totalWeight * (1 # 100))).
  generalize (buildTreeLines root totalWeight (totalWeight * (1 # 100))
                [] "" true true).
  intros lines entries.
  rewrite !pushEach_rows. unfold push.
  destruct (1 <? count)%nat;
    destruct entries as [|e entries]; destruct lines as [|l lines];
    cbn [List.length Nat.ltb Nat.leb bottomsUpSection callTreeSection];
    cbn [app]; rewrite <- ?app_assoc, ?app_nil_r; reflexivity.
Qed.

(** The multi-profile report, block by block. *)
Lemma generateAllProfilesSummary_layout (profiles : list ProfileInfo.t) :
  generateAllProfilesSummary formatPercent profiles
  = join LF
      (allProfilesHeader (List.length profiles)
       ++ List.concat
            (mapi_from (profileRows formatPercent (List.length profiles))
                       profiles 0))%list.
Proof.
  unfold generateAllProfilesSummary, forEach. cbv zeta.
  rewrite (forEach_from_push _ (profileRows formatPercent (List.length profiles)))
    by (intros; apply profileBlock_rows).
  rewrite forEach_from_concat. reflexivity.
Qed.
End ProfilesLayout.

(** ** Strings *)

Lemma join_starts_with (sep : string) (c : ascii) (t : string)
      (rest : list string) :
  exists u, join sep (String c t :: rest) = String c u.
Proof.
  destruct rest; cbn [join append]; eauto.
Qed.

Lemma filter_perm {A : Type} (p : A -> bool) (l l' : list A) :
  Permutation l l' -> Permutation (filter p l) (filter p l').
Proof.
  induction 1 as [|x l l' _ IH|x y l|l l' l'' _ IH1 _ IH2]; simpl.
  - apply perm_nil.
  - destruct (p x); [now apply perm_skip | exact IH].
  - destruct (p x), (p y); try apply Permutation_refl. apply perm_swap.
  - now apply perm_trans with (filter p l').
Qed.

Lemma filter_key (m : FrameMap) (f : Frame.t) :
  NoDup (keys m) ->
  filter (fun binding => Frame.eqb (fst binding) f) m
  = match Map_get m f with
    | Some w => [(f, w)]
    | None => []
    end.
Proof.
  unfold keys, Frame.eqb.
  induction m as [|[k v] m IH]; intros Hm; cbn [filter Map_get fst].
  - reflexivity.
  - inversion Hm as [|? ? Hk Hrest]; subst.
    destruct (Frame.eq_dec k f) as [Heq|Hne].
    + subst k. rewrite (IH Hrest).
      destruct (Map_get m f) as [w|] eqn:Hget; [|reflexivity].
      exfalso. apply Hk. apply in_map_iff. exists (f, w). split; [reflexivity|].
      now apply Map_get_In.
    + now apply IH.
Qed.

(** * The claims of the specification *)

(** ** Aggregation adds up (C1) *)



(** The literals of the binary64 example are the numbers JavaScript reads
    them as. *)
Lemma binary64_literals :
  Double.nearest Double.lit_0_1 (1 # 10)
  /\ Double.nearest Double.lit_0_2 (2 # 10)
  /\ Double.nearest Double.lit_0_3 (3 # 10)
  /\ Double.nearest Double.lit_0_5 (5 # 10)
  /\ Double.nearest Double.lit_0_6 (6 # 10)
  /\ Double.nearest Double.lit_100 100.
Proof.
  repeat split; try reflexivity; vm_compute; discriminate.
Qed.


(** ** The synthetic root stays out of the output (C2) *)

Lemma unindent_treeLineOf (l : TreeLine.t) (n : CallTreeNode) (totalWeight : Q) :
  treeLineOf n totalWeight "" = unindent l ->
  l = treeLineOf n totalWeight (TreeLine.indent l).
Proof.
  destruct l. unfold unindent, treeLineOf. cbn. intros H.
  injection H as -> -> -> -> -> -> -> ->. reflexivity.
Qed.

(** Every line pushed by the renderer is the line of a node of the subtree
    for which [isRoot()] does not hold. *)
Lemma buildTreeLines_from_nodes (start : CallTreeNode) (totalWeight minWeight : Q)
      (prefix : string) (isLast isRootArg : bool) :
  Forall
    (fun l => exists n,
         In n (nodes start) /\ isRoot n = false
         /\ l = treeLineOf n totalWeight (TreeLine.indent l))
    (buildTreeLines start totalWeight minWeight [] prefix isLast isRootArg).
Proof.
  apply Forall_forall. intros l Hl.
  apply (in_map unindent) in Hl.
  apply (Permutation_in _
           (buildTreeLines_nodes start totalWeight minWeight prefix isLast
              isRootArg)) in Hl.
  apply in_map_iff in Hl. destruct Hl as [n [Hline Hn]].
  apply visibleNodes_visited, visited_In in Hn.
  exists n. repeat split; try apply Hn. now apply unindent_treeLineOf.
Qed.

Lemma visibleNodes_length_le (minWeight : Q) (start : CallTreeNode) :
  (List.length (visibleNodes minWeight start) <= List.length (visited start))%nat.
Proof.
  induction start as [start IH] using CallTreeNode_tree_ind.
  rewrite Forall_forall in IH. rewrite visited_unfold.
  destruct start as [f r t s kids]. cbn [visibleNodes isRoot children] in *.
  rewrite !length_app, !length_flat_map.
  apply Nat.add_le_mono_l, list_sum_le.
  intros c Hc. destruct (Qge_bool (getTotalWeight c) minWeight).
  - now apply IH.
  - apply Nat.le_0_l.
Qed.

Lemma hasFrame_eq (f : Frame.t) (n : CallTreeNode) :
  hasFrame f n = true <-> frame n = f.
Proof.
  unfold hasFrame, Frame.eqb.
  destruct (Frame.eq_dec (frame n) f); split; congruence.
Qed.

(** C2.  Whatever the tree, the start node, the thresholds and the baseline:
    (1) the lines the renderer pushes are lines of nodes of the subtree for
    which [isRoot()] does not hold, and there are no more of them than such
    nodes; (2) the aggregation walk is the accumulation of exactly those
    nodes, so a root adds no binding and no weight, and every entry
    returned carries the frame of such a node with the merged weights of the
    nodes of that frame; (3) at a root both walks do nothing but process its
    children. *)
Theorem synthetic_root_never_in_output
        (start : CallTreeNode) (totalWeight minWeight minSelfWeight : Q)
        (lines : list TreeLine.t) (prefix : string) (isLast isRootArg : bool)
        (frameWeights : FrameMap) :
  (exists pushed,
      buildTreeLines start totalWeight minWeight lines prefix isLast isRootArg
      = push lines pushed
      /\ Forall
           (fun l => exists n,
                In n (nodes start) /\ isRoot n = false
                /\ l = treeLineOf n totalWeight (TreeLine.indent l))
           pushed
      /\ (List.length pushed <= List.length (visited start))%nat)
  /\ walkSubtree start frameWeights
     = fold_left accumulate
         (filter (fun n => negb (isRoot n)) (nodes start)) frameWeights
  /\ Forall
       (fun e =>
          (exists n,
              In n (nodes start) /\ isRoot n = false
              /\ frame n = BottomsUpEntry.frame e)
          /\ aggregate (filter (hasFrame (BottomsUpEntry.frame e)) (visited start))
             = Some {| Weights.totalWeight := BottomsUpEntry.totalWeight e;
                       Weights.selfWeight := BottomsUpEntry.selfWeight e |})
       (buildBottomsUpEntries start totalWeight minSelfWeight)
  /\ (isRoot start = true ->
      buildTreeLines start totalWeight minWeight lines prefix isLast isRootArg
      = forEach (selectedChildren minWeight start)
          (fun child index lines =>
             buildTreeLines child totalWeight minWeight lines ""
               (index =? List.length (selectedChildren minWeight start) - 1)%nat
               true)
          lines
      /\ walkSubtree start frameWeights
         = fold_left (fun frameWeights child => walkSubtree child frameWeights)
                     (children start) frameWeights).
Proof.
  split; [|split; [|split]].
  - exists (buildTreeLines start totalWeight minWeight [] prefix isLast isRootArg).
    split; [apply buildTreeLines_push|]. split.
    + apply buildTreeLines_from_nodes.
    + pose proof (buildTreeLines_length start totalWeight minWeight []
                    prefix isLast isRootArg) as Hlen.
      cbn [List.length Nat.add] in Hlen. rewrite Hlen.
      apply visibleNodes_length_le.
  - apply walkSubtree_fold.
  - apply Forall_forall. intros e He.
    apply buildBottomsUpEntries_In in He.
    destruct He as [f [w [Hget [_ ->]]]].
    rewrite Map_get_walk in Hget. cbn [entryOf BottomsUpEntry.frame
      BottomsUpEntry.totalWeight BottomsUpEntry.selfWeight].
    split.
    + destruct (filter (hasFrame f) (visited start)) as [|n occurrences] eqn:Hocc;
        [discriminate|].
      assert (Hn : In n (filter (hasFrame f) (visited start)))
        by (rewrite Hocc; now left).
      apply filter_In in Hn. destruct Hn as [Hn Hf].
      apply visited_In in Hn. apply hasFrame_eq in Hf.
      exists n. repeat split; try apply Hn. exact Hf.
    + rewrite Hget. now destruct w.
  - intros Hroot. split.
    + rewrite buildTreeLines_unfold. cbv zeta. now rewrite Hroot.
    + destruct start as [f r t s kids]. cbn [isRoot] in Hroot. subst r.
      reflexivity.
Qed.

Lemma synthetic_root_never_in_output_witness :
  isRoot exampleRoot = true
  /\ buildTreeLines exampleRoot 100 1 [] "" true true
  = forEach (selectedChildren 1 exampleRoot)
      (fun child index lines =>
         buildTreeLines child 100 1 lines ""
           (index =? List.length (selectedChildren 1 exampleRoot) - 1)%nat true)
      []
  /\ walkSubtree exampleRoot []
     = fold_left (fun frameWeights child => walkSubtree child frameWeights)
                 (children exampleRoot) [].
Proof.
  split; [reflexivity|].
  apply (synthetic_root_never_in_output exampleRoot 100 1 1 [] "" true true []).
  reflexivity.
Defined.

(** ** One entry per frame (C3) *)

Lemma filter_swap {A : Type} (p q : A -> bool) (l : list A) :
  filter p (filter q l) = filter q (filter p l).
Proof.
  induction l as [|x l IH]; simpl.
  - reflexivity.
  - destruct (p x) eqn:Hp, (q x) eqn:Hq; simpl; rewrite ?Hp, ?Hq, IH;
      reflexivity.
Qed.

(** The entries for one frame: at most the one made from its binding. *)
Lemma buildBottomsUpEntries_of_frame (start : CallTreeNode) (f : Frame.t)
      (totalWeight minSelfWeight : Q) :
  filter (fun e => Frame.eqb (BottomsUpEntry.frame e) f)
         (buildBottomsUpEntries start totalWeight minSelfWeight)
  = match Map_get (walkSubtree start []) f with
    | Some w =>
        if Qge_bool (Weights.selfWeight w) minSelfWeight
        then [entryOf totalWeight f w] else []
    | None => []
    end.
Proof.
  rewrite buildBottomsUpEntries_eq.
  pose proof (filter_perm (fun e => Frame.eqb (BottomsUpEntry.frame e) f) _ _
                (Array_sort_perm bySelfDesc
                   (map (entryOfBinding totalWeight)
                        (filter (passes minSelfWeight) (walkSubtree start [])))))
    as Hperm.
  rewrite (filter_map_comm (entryOfBinding totalWeight)
             (fun binding => Frame.eqb (fst binding) f)) in Hperm
    by reflexivity.
  rewrite filter_swap, (filter_key _ f (walkSubtree_NoDup start)) in Hperm.
  destruct (Map_get (walkSubtree start []) f) as [w|].
  - cbn [filter] in Hperm.
    change (passes minSelfWeight (f, w))
      with (Qge_bool (Weights.selfWeight w) minSelfWeight) in Hperm.
    destruct (Qge_bool (Weights.selfWeight w) minSelfWeight); cbn [map] in Hperm.
    + apply Permutation_sym, Permutation_length_1_inv in Hperm. exact Hperm.
    + now apply Permutation_sym, Permutation_nil in Hperm.
  - cbn [filter map] in Hperm.
    now apply Permutation_sym, Permutation_nil in Hperm.
Qed.

(** What an entry holds, field by field. *)
Lemma entryFields_entryOf (totalWeight : Q) (f : Frame.t) (w : Weights.t) :
  entryFields (entryOf totalWeight f w)
  = (f, Weights.totalWeight w, Weights.selfWeight w,
     (Weights.totalWeight w / totalWeight) * 100,
     (Weights.selfWeight w / totalWeight) * 100).
Proof. reflexivity. Qed.

(** C3, as amended.  When exactly two visited nodes of the subtree carry the
    frame [f], [n1] met first and [n2] second (at different depths, or one
    below the other), the map ends with a single binding for [f], whose self
    weight is the self weight of [n1] plus that of [n2] and whose total
    weight is the sum of their total weights.  When that summed self weight
    reaches the threshold, the entries returned hold exactly one entry for
    [f]: its frame is [f], its self weight is the sum of the two self
    weights, its total weight the sum of the two total weights, and its
    percentages are these weights over the baseline; when it does not, they
    hold none.  There are never two. *)
Theorem frame_at_two_nodes_one_entry
        (start : CallTreeNode) (f : Frame.t) (n1 n2 : CallTreeNode)
        (totalWeight minSelfWeight : Q) :
  filter (hasFrame f) (visited start) = [n1; n2] ->
  filter (fun binding => Frame.eqb (fst binding) f) (walkSubtree start [])
  = [(f, {| Weights.totalWeight := getTotalWeight n1 + getTotalWeight n2;
            Weights.selfWeight := getSelfWeight n1 + getSelfWeight n2 |})]
  /\ map entryFields
         (filter (fun e => Frame.eqb (BottomsUpEntry.frame e) f)
                 (buildBottomsUpEntries start totalWeight minSelfWeight))
     = (if Qge_bool (getSelfWeight n1 + getSelfWeight n2) minSelfWeight
        then [(f,
               getTotalWeight n1 + getTotalWeight n2,
               getSelfWeight n1 + getSelfWeight n2,
               ((getTotalWeight n1 + getTotalWeight n2) / totalWeight) * 100,
               ((getSelfWeight n1 + getSelfWeight n2) / totalWeight) * 100)]
        else [])
  /\ (List.length
        (filter (fun e => Frame.eqb (BottomsUpEntry.frame e) f)
                (buildBottomsUpEntries start totalWeight minSelfWeight))
      <= 1)%nat.
Proof.
  intros Htwo.
  assert (Hget : Map_get (walkSubtree start []) f
                 = Some {| Weights.totalWeight :=
                             getTotalWeight n1 + getTotalWeight n2;
                           Weights.selfWeight :=
                             getSelfWeight n1 + getSelfWeight n2 |})
    by (rewrite Map_get_walk, Htwo; reflexivity).
  split; [|split].
  - now rewrite (filter_key _ f (walkSubtree_NoDup start)), Hget.
  - rewrite buildBottomsUpEntries_of_frame, Hget.
    cbn [Weights.selfWeight].
    destruct (Qge_bool (getSelfWeight n1 + getSelfWeight n2) minSelfWeight);
      [|reflexivity].
    cbn [map]. now rewrite entryFields_entryOf.
  - rewrite buildBottomsUpEntries_of_frame, Hget.
    destruct (Qge_bool _ _); cbn [List.length]; lia.
Qed.

Lemma frame_at_two_nodes_one_entry_witness :
  filter (hasFrame frameA) (visited recursiveRoot)
  = [recursiveOuter; recursiveInner]
  /\ map entryFields
         (filter (fun e => Frame.eqb (BottomsUpEntry.frame e) frameA)
                 (buildBottomsUpEntries recursiveRoot 100 1))
     = [(frameA, 100 + 90, 10 + 90,
         ((100 + 90) / 100) * 100, ((10 + 90) / 100) * 100)].
Proof.
  split; [reflexivity|].
  apply (frame_at_two_nodes_one_entry recursiveRoot frameA recursiveOuter
           recursiveInner 100 1).
  reflexivity.
Defined.

(** C3, as stated, fails below the threshold.  In
    root -> B(100, 99.5) -> T(0.5, 0.25) -> T(0.25, 0.25) the frame T is met
    at exactly two nodes, with self weights 0.25 and 0.25; at one percent of
    a total weight of 100 the aggregation returns the entry of B alone, and
    none for T. *)
Lemma frame_at_two_nodes_below_threshold :
  filter (hasFrame frameT) (visited smallRoot) = [smallOuter; smallInner]
  /\ map BottomsUpEntry.frame
         (buildBottomsUpEntries smallRoot 100 (100 * MIN_WEIGHT_THRESHOLD))
     = [frameB]
  /\ ~ (exists e,
          In e (buildBottomsUpEntries smallRoot 100
                  (100 * MIN_WEIGHT_THRESHOLD))
          /\ BottomsUpEntry.frame e = frameT).
Proof.
  split; [reflexivity|]. split; [reflexivity|].
  intros [e [Hin Hframe]].
  apply (in_map BottomsUpEntry.frame) in Hin.
  rewrite Hframe in Hin.
  change (In frameT [frameB]) in Hin.
  destruct Hin as [Heq|[]]. discriminate Heq.
Qed.

(** ** Which weight each threshold is taken from (C4) *)

(** C4.  The single-subtree report is made of the bottoms-up entries cut at
    one percent of the total weight passed in (the weight of the whole
    profile) and of the call-tree lines cut at one percent of the selected
    node's own total weight, which for the root is taken to be that total
    weight of the profile.  In the multi-profile report both sections of a
    profile are cut at one percent of that profile's own total weight.
    Cutting at [t] means: an entry is returned for a binding of the map
    exactly when its merged self weight is at least [t], and the lines
    pushed are those of the nodes visible at [t]. *)
Theorem report_thresholds (formatPercent : Q -> string)
        (options : TreeSummaryOptions.t) (profiles : list ProfileInfo.t) :
  let node := TreeSummaryOptions.node options in
  let totalWeight := TreeSummaryOptions.totalWeight options in
  let formatValue := TreeSummaryOptions.formatValue options in
  let entries :=
    buildBottomsUpEntries node totalWeight (totalWeight * (1 # 100)) in
  let lines :=
    buildTreeLines node totalWeight
      ((if isRoot node then totalWeight else getTotalWeight node) * (1 # 100))
      [] "" true true in
  generateTreeSummary formatPercent options
  = match entries, lines with
    | [], [] => NO_DATA
    | _, _ =>
        join LF
          (summaryHeader
           ++ selectedBlock formatPercent node totalWeight formatValue
           ++ bottomsUpSection formatPercent formatValue entries
           ++ callTreeSection formatPercent
                "Call Tree (callees, >=1% of selection):" formatValue lines
           ++ summaryFooter totalWeight formatValue)%list
    end
  /\ generateAllProfilesSummary formatPercent profiles
     = join LF
         (allProfilesHeader (List.length profiles)
          ++ List.concat
               (mapi_from
                  (fun info i =>
                     let profile := ProfileInfo.profile info in
                     let root := Profile.getGroupedCalltreeRoot profile in
                     let own := Profile.getTotalNonIdleWeight profile in
                     (if (1 <? List.length profiles)%nat
                      then profileSubHeader (List.length profiles) info i
                      else [])
                     ++ bottomsUpSection formatPercent
                          (Profile.formatValue profile)
                          (buildBottomsUpEntries root own (own * (1 # 100)))
                     ++ callTreeSection formatPercent
                          "Call Tree (>=1% of total):"
                          (Profile.formatValue profile)
                          (buildTreeLines root own (own * (1 # 100))
                             [] "" true true))
                  profiles 0))%list
  /\ (forall start baseline t e,
         In e (buildBottomsUpEntries start baseline t)
         <-> exists f w,
               Map_get (walkSubtree start []) f = Some w
               /\ t <= Weights.selfWeight w
               /\ e = entryOf baseline f w)
  /\ (forall start baseline t,
         Permutation
           (map unindent (buildTreeLines start baseline t [] "" true true))
           (map (fun n => treeLineOf n baseline "") (visibleNodes t start))).
Proof.
  cbv zeta. split; [|split; [|split]].
  - apply generateTreeSummary_layout.
  - apply generateAllProfilesSummary_layout.
  - intros start baseline t e. apply buildBottomsUpEntries_In.
  - intros start baseline t. apply buildTreeLines_nodes.
Qed.

(** ** The worked example (C5) *)

(** C5.  For root -> A(total=100, self=10) -> B(total=90, self=90) and a
    total weight of 100, the report generated from the root lists in its
    Bottoms Up section exactly the two entries B (self 90, 90 percent) and
    then A (self 10, 10 percent), and in its Call Tree section A as the only
    top-level line, with the stats [[100 (100.0%), self: 10 (10.0%)]],
    followed by B one level below it with [[90 (90.0%), self: 90 (90.0%)]].
    The first four parts hold for the code alone; the last two print weights
    as bare integers and percentages with one decimal. *)
Theorem example_report :
  buildBottomsUpEntries exampleRoot 100 (100 * MIN_WEIGHT_THRESHOLD)
  = [ entryOf 100 frameB
        {| Weights.totalWeight := 90; Weights.selfWeight := 90 |};
      entryOf 100 frameA
        {| Weights.totalWeight := 100; Weights.selfWeight := 10 |} ]
  /\ (90 / 100) * 100 == 90 /\ (10 / 100) * 100 == 10 /\ (100 / 100) * 100 == 100
  /\ buildTreeLines exampleRoot 100 (100 * MIN_WEIGHT_THRESHOLD) [] "" true true
     = [ treeLineOf exampleA 100 ""; treeLineOf exampleB 100 "└─ " ]
  /\ (forall formatPercent formatValue,
         generateTreeSummary formatPercent (exampleOptions formatValue)
         = join LF
             [ "Performance Summary";
               str_repeat "=" 60;
               "";
               "Bottoms Up (by self time, >=1% of total):";
               str_repeat "-" 60;
               "";
               "B";
               "[self: " ++ formatValue 90
                 ++ " (" ++ formatPercent ((90 / 100) * 100)
                 ++ "), total: " ++ formatValue 90
                 ++ " (" ++ formatPercent ((90 / 100) * 100) ++ ")]";
               "";
               "A";
               "[self: " ++ formatValue 10
                 ++ " (" ++ formatPercent ((10 / 100) * 100)
                 ++ "), total: " ++ formatValue 100
                 ++ " (" ++ formatPercent ((100 / 100) * 100) ++ ")]";
               "";
               "Call Tree (callees, >=1% of selection):";
               str_repeat "-" 60;
               "";
               "A";
               "[" ++ formatValue 100
                 ++ " (" ++ formatPercent ((100 / 100) * 100)
                 ++ "), self: " ++ formatValue 10
                 ++ " (" ++ formatPercent ((10 / 100) * 100) ++ ")]";
               "└─ B";
               "└─ [" ++ formatValue 90
                 ++ " (" ++ formatPercent ((90 / 100) * 100)
                 ++ "), self: " ++ formatValue 90
                 ++ " (" ++ formatPercent ((90 / 100) * 100) ++ ")]";
               "";
               str_repeat "-" 60;
               "Total weight of profile: " ++ formatValue 100 ])
  /\ map (fun line => formatTreeLine formatPercent_oneDecimal line formatValue_plain)
         [ treeLineOf exampleA 100 ""; treeLineOf exampleB 100 "└─ " ]
     = [ [ "A"; "[100 (100.0%), self: 10 (10.0%)]" ];
         [ "└─ B"; "└─ [90 (90.0%), self: 90 (90.0%)]" ] ]
  /\ generateTreeSummary formatPercent_oneDecimal (exampleOptions formatValue_plain)
     = join LF
         [ "Performance Summary";
           "============================================================";
           "";
           "Bottoms Up (by self time, >=1% of total):";
           "------------------------------------------------------------";
           "";
           "B";
           "[self: 90 (90.0%), total: 90 (90.0%)]";
           "";
           "A";
           "[self: 10 (10.0%), total: 100 (100.0%)]";
           "";
           "Call Tree (callees, >=1% of selection):";
           "------------------------------------------------------------";
           "";
           "A";
           "[100 (100.0%), self: 10 (10.0%)]";
           "└─ B";
           "└─ [90 (90.0%), self: 90 (90.0%)]";
           "";
           "------------------------------------------------------------";
           "Total weight of profile: 100" ].
Proof.
  repeat split; try reflexivity.
Qed.

(** ** Filtering is monotone (C6) *)

(** C6.  For every tree, start node, baseline and position arguments: with
    [t1 <= t2] the renderer pushes at most as many lines at threshold [t2] as
    at threshold [t1]; and at threshold 0, total weights not being negative,
    it pushes one line for every node of the subtree other than a root, each
    exactly once. *)
Theorem callTree_filtering_monotone
        (start : CallTreeNode) (totalWeight t1 t2 : Q)
        (prefix : string) (isLast isRootArg : bool) :
  (t1 <= t2 ->
   (List.length
      (buildTreeLines start totalWeight t2 [] prefix isLast isRootArg)
    <= List.length
         (buildTreeLines start totalWeight t1 [] prefix isLast isRootArg))%nat)
  /\ (nonNegativeTotal start ->
      Permutation
        (map unindent
             (buildTreeLines start totalWeight 0 [] prefix isLast isRootArg))
        (map (fun n => treeLineOf n totalWeight "") (visited start))
      /\ List.length
           (buildTreeLines start totalWeight 0 [] prefix isLast isRootArg)
         = List.length (visited start)).
Proof.
  split.
  - intros Hle. rewrite !buildTreeLines_length.
    cbn [List.length Nat.add]. now apply visibleNodes_monotone.
  - intros Hnonneg.
    rewrite <- (visibleNodes_all 0 start Hnonneg).
    split; [apply buildTreeLines_nodes|].
    now rewrite buildTreeLines_length.
Qed.

Lemma callTree_filtering_monotone_witness :
  1 <= 95
  /\ nonNegativeTotal exampleRoot
  /\ (List.length (buildTreeLines exampleRoot 100 95 [] "" true true)
      <= List.length (buildTreeLines exampleRoot 100 1 [] "" true true))%nat
  /\ List.length (buildTreeLines exampleRoot 100 0 [] "" true true)
     = List.length (visited exampleRoot).
Proof.
  assert (Hle : 1 <= 95) by discriminate.
  assert (Hnonneg : nonNegativeTotal exampleRoot).
  { unfold nonNegativeTotal. vm_compute nodes.
    repeat constructor; discriminate. }
  destruct (callTree_filtering_monotone exampleRoot 100 1 95 "" true true)
    as [Hmono Hzero].
  split; [exact Hle|]. split; [exact Hnonneg|].
  split; [exact (Hmono Hle) | exact (proj2 (Hzero Hnonneg))].
Defined.

(** ** The sentinel of the single-subtree report (C7) *)

(** A joined report that begins with a title is not the sentinel, whose
    first letter differs. *)
Ltac titled_report :=
  unfold summaryHeader, allProfilesHeader; cbn [app];
  match goal with
  | |- context [join LF (String ?c ?t :: ?rest)] =>
      let u := fresh "u" in
      let Hu := fresh "Hu" in
      destruct (join_starts_with LF c t rest) as [u Hu];
      rewrite Hu; discriminate
  end.

(** C7.  [generateTreeSummary] returns the string [No data available], and
    nothing more, exactly when both the list of bottoms-up entries and the
    list of call-tree lines of the report are empty; as soon as one of them
    is not empty it returns something else.  A root without children is
    such an input, whatever its weights, the total weight (0 included) and
    the formatters. *)
Theorem no_data_sentinel (formatPercent : Q -> string)
        (options : TreeSummaryOptions.t) :
  let node := TreeSummaryOptions.node options in
  let totalWeight := TreeSummaryOptions.totalWeight options in
  let entries :=
    buildBottomsUpEntries node totalWeight (totalWeight * MIN_WEIGHT_THRESHOLD) in
  let lines :=
    buildTreeLines node totalWeight
      ((if isRoot node then totalWeight else getTotalWeight node)
       * MIN_WEIGHT_THRESHOLD)
      [] "" true true in
  (generateTreeSummary formatPercent options = "No data available"
   <-> entries = [] /\ lines = [])
  /\ (forall f total self profileWeight formatValue,
         generateTreeSummary formatPercent
           {| TreeSummaryOptions.node := mkNode f true total self [];
              TreeSummaryOptions.totalWeight := profileWeight;
              TreeSummaryOptions.formatValue := formatValue |}
         = "No data available").
Proof.
  cbv zeta. split; [|reflexivity].
  rewrite generateTreeSummary_layout. cbv zeta.
  unfold selectionWeight. change MIN_WEIGHT_THRESHOLD with (1 # 100).
  destruct (buildBottomsUpEntries _ _ _) as [|e entries];
    destruct (buildTreeLines _ _ _ _ _ _ _) as [|l lines].
  - split; [now split | reflexivity].
  - split; [titled_report | intros [_ H]; discriminate H].
  - split; [titled_report | intros [H _]; discriminate H].
  - split; [titled_report | intros [H _]; discriminate H].
Qed.

(** ** Delivery reports a boolean (C8) *)

(** C8.  Whatever the clipboard call does, [copyToClipboard] completes
    normally with a boolean and never throws: [true] when the call
    completes normally, [false], after a message on the console, when it
    throws. *)
Theorem copyToClipboard_reports_boolean
        (writeText : string -> Js.M unit) (text : string) (console : list string) :
  match writeText text console with
  | (Js.Normal _, console') =>
      copyToClipboard writeText text console = (Js.Normal true, console')
  | (Js.Throw err, console') =>
      copyToClipboard writeText text console
      = (Js.Normal false,
         push console' ["Failed to copy to clipboard: " ++ err])
  end
  /\ (exists b console',
         copyToClipboard writeText text console = (Js.Normal b, console'))
  /\ (forall err console',
         copyToClipboard writeText text console <> (Js.Throw err, console')).
Proof.
  unfold copyToClipboard, Js.try_catch, Js.bind, Js.ret, Js.console_error.
  destruct (writeText text console) as [[[]|err] console'].
  - repeat split; [eauto | discriminate].
  - repeat split; [eauto | discriminate].
Qed.

(** ** Recursion counts a weight more than once (C9) *)

(** C9.  There is a tree in which a node lies below another node of the same
    frame, such that the total weight of the frame's entry is strictly more
    than the total weight of the outer node, and its total percentage,
    taken against the weight of the whole subtree, is more than 100. *)
Theorem recursion_inflates_total :
  exists (start outer inner : CallTreeNode) (e : BottomsUpEntry.t),
    In outer (children start)
    /\ In inner (flat_map nodes (children outer))
    /\ frame inner = frame outer
    /\ buildBottomsUpEntries start (getTotalWeight start)
         (getTotalWeight start * MIN_WEIGHT_THRESHOLD)
       = [e]
    /\ BottomsUpEntry.frame e = frame outer
    /\ BottomsUpEntry.totalWeight e == getTotalWeight outer + getTotalWeight inner
    /\ getTotalWeight outer < BottomsUpEntry.totalWeight e
    /\ 100 < BottomsUpEntry.totalPercent e.
Proof.
  exists recursiveRoot, recursiveOuter, recursiveInner,
    (entryOf 100 frameA
       {| Weights.totalWeight := 100 + 90; Weights.selfWeight := 10 + 90 |}).
  repeat split.
  - now left.
  - now left.
Qed.

(** ** The multi-profile report has no sentinel (C10) *)

(** C10.  [generateAllProfilesSummary] never returns [No data available].
    For every list of profiles it returns the header block, which states the
    number of profiles, followed by the blocks of the profiles in order; a
    block starts with the delimiting sub-header only when the list has more
    than one profile.  For the empty list the result is the header alone,
    with [Total profiles: 0]; for a single profile without data it is the
    header alone, with [Total profiles: 1]. *)
Theorem allProfiles_never_sentinel (formatPercent : Q -> string)
        (profiles : list ProfileInfo.t) :
  generateAllProfilesSummary formatPercent profiles <> "No data available"
  /\ generateAllProfilesSummary formatPercent profiles
     = join LF
         (push
            [ "Performance Profile Summary";
              str_repeat "=" 60;
              "";
              "Total profiles: " ++ nat_to_string (List.length profiles);
              "" ]
            (List.concat
               (mapi_from
                  (fun info i =>
                     push
                       (if (1 <? List.length profiles)%nat
                        then profileSubHeader (List.length profiles) info i
                        else [])
                       (profileSections formatPercent info))
                  profiles 0)))
  /\ generateAllProfilesSummary formatPercent []
     = join LF
         [ "Performance Profile Summary"; str_repeat "=" 60; "";
           "Total profiles: 0"; "" ]
  /\ (forall info,
         generateAllProfilesSummary formatPercent [info]
         = join LF
             (push
                [ "Performance Profile Summary"; str_repeat "=" 60; "";
                  "Total profiles: 1"; "" ]
                (profileSections formatPercent info)))
  /\ (forall name formatValue,
         generateAllProfilesSummary formatPercent [emptyProfile name formatValue]
         = join LF
             [ "Performance Profile Summary"; str_repeat "=" 60; "";
               "Total profiles: 1"; "" ]).
Proof.
  split; [|split; [|split; [|split]]].
  - rewrite generateAllProfilesSummary_layout. titled_report.
  - apply generateAllProfilesSummary_layout.
  - reflexivity.
  - intros info. rewrite generateAllProfilesSummary_layout.
    unfold profileRows, push.
    cbn [List.length Nat.ltb Nat.leb mapi_from List.concat app].
    now rewrite app_nil_r.
  - reflexivity.
Qed.

(** * Further properties of the code *)

(** ** The renderer, line by line *)

Lemma Forall_concat_mapi {A B : Type} (P : B -> Prop) (f : A -> nat -> list B)
      (l : list A) :
  (forall x i, In x l -> Forall P (f x i)) ->
  forall i, Forall P (List.concat (mapi_from f l i)).
Proof.
  induction l as [|x l IH]; intros Hf i; cbn [mapi_from List.concat].
  - constructor.
  - apply Forall_app. split.
    + apply Hf. now left.
    + apply IH. intros; apply Hf; now right.
Qed.

(** The lines of a call without the accumulator: the node's own line, then
    the lines of the selected children, child by child. *)
Lemma buildTreeLines_blocks (node : CallTreeNode) (totalWeight minWeight : Q)
      (prefix : string) (isLast isRootArg : bool) :
  buildTreeLines node totalWeight minWeight [] prefix isLast isRootArg
  = ((if isRoot node then []
      else [treeLineOf node totalWeight
              (prefix ++ connectorOf isLast isRootArg)])
     ++ List.concat
          (mapi_from
             (fun child i =>
                buildTreeLines child totalWeight minWeight []
                  (if isRoot node then ""
                   else childPrefixOf prefix isLast isRootArg)
                  (i =? List.length (selectedChildren minWeight node) - 1)%nat
                  (isRoot node))
             (selectedChildren minWeight node) 0))%list.
Proof.
  rewrite buildTreeLines_unfold. cbv zeta. unfold forEach.
  destruct (isRoot node).
  - rewrite (forEach_from_push _
               (fun child i =>
                  buildTreeLines child totalWeight minWeight [] ""
                    (i =? List.length (selectedChildren minWeight node) - 1)%nat
                    true))
      by (intros; apply buildTreeLines_push).
    now rewrite forEach_from_concat.
  - rewrite (forEach_from_push _
               (fun child i =>
                  buildTreeLines child totalWeight minWeight []
                    (childPrefixOf prefix isLast isRootArg)
                    (i =? List.length (selectedChildren minWeight node) - 1)%nat
                    false))
      by (intros; apply buildTreeLines_push).
    now rewrite forEach_from_concat.
Qed.

(** Below a node that reaches the threshold, or below a root, every line
    reaches the threshold. *)
Lemma buildTreeLines_heavy (minWeight : Q) (node : CallTreeNode) :
  forall totalWeight prefix isLast isRootArg,
    isRoot node = true \/ minWeight <= getTotalWeight node ->
    Forall (fun l => minWeight <= TreeLine.totalWeight l)
           (buildTreeLines node totalWeight minWeight [] prefix isLast isRootArg).
Proof.
  induction node as [node IH] using CallTreeNode_tree_ind.
  intros totalWeight prefix isLast isRootArg Hnode.
  rewrite Forall_forall in IH.
  rewrite buildTreeLines_blocks. apply Forall_app. split.
  - destruct (isRoot node); [constructor|].
    destruct Hnode as [Hroot|Hle]; [discriminate|].
    now repeat constructor.
  - apply Forall_concat_mapi. intros child i Hchild.
    apply selectedChildren_In in Hchild. destruct Hchild as [Hin Hle].
    apply (IH child Hin). now right.
Qed.

(** X1.  A call of [buildTreeLines] only appends: the array it leaves is the
    array it was given followed by lines that do not depend on that array. *)
Theorem buildTreeLines_only_appends
        (node : CallTreeNode) (totalWeight minWeight : Q)
        (lines lines' : list TreeLine.t) (prefix : string)
        (isLast isRootArg : bool) :
  exists pushed,
    buildTreeLines node totalWeight minWeight lines prefix isLast isRootArg
    = (lines ++ pushed)%list
    /\ buildTreeLines node totalWeight minWeight lines' prefix isLast isRootArg
       = (lines' ++ pushed)%list.
Proof.
  exists (buildTreeLines node totalWeight minWeight [] prefix isLast isRootArg).
  split; apply buildTreeLines_push.
Qed.

(** X2.  The start node is exempt from the threshold: unless it is the root
    its line comes first, with the indentation [prefix] plus connector,
    whatever its weight; every line after it has a total weight that reaches
    the threshold. *)
Theorem buildTreeLines_start_then_heavy
        (node : CallTreeNode) (totalWeight minWeight : Q) (prefix : string)
        (isLast isRootArg : bool) :
  exists rest,
    buildTreeLines node totalWeight minWeight [] prefix isLast isRootArg
    = ((if isRoot node then []
        else [treeLineOf node totalWeight
                (prefix ++ connectorOf isLast isRootArg)])
       ++ rest)%list
    /\ Forall (fun l => minWeight <= TreeLine.totalWeight l) rest.
Proof.
  eexists. split; [apply buildTreeLines_blocks|].
  apply Forall_concat_mapi. intros child i Hchild.
  apply selectedChildren_In in Hchild.
  apply buildTreeLines_heavy. right. apply Hchild.
Qed.

(** X3.  The lines come in pre-order with siblings heaviest first: after the
    node's own line come, one after the other, all the lines of each child
    that reaches the threshold, the children taken in order of decreasing
    total weight; the last of them is rendered with [isLast], and the
    children of a root are rendered as top-level nodes with an empty
    prefix. *)
Theorem buildTreeLines_preorder
        (node : CallTreeNode) (totalWeight minWeight : Q) (prefix : string)
        (isLast isRootArg : bool) :
  let selected := selectedChildren minWeight node in
  buildTreeLines node totalWeight minWeight [] prefix isLast isRootArg
  = ((if isRoot node then []
      else [treeLineOf node totalWeight
              (prefix ++ connectorOf isLast isRootArg)])
     ++ List.concat
          (mapi_from
             (fun child i =>
                buildTreeLines child totalWeight minWeight []
                  (if isRoot node then ""
                   else childPrefixOf prefix isLast isRootArg)
                  (i =? List.length selected - 1)%nat
                  (isRoot node))
             selected 0))%list
  /\ StronglySorted (descending getTotalWeight) selected
  /\ (forall child,
         In child selected
         <-> In child (children node) /\ minWeight <= getTotalWeight child).
Proof.
  cbv zeta. split; [apply buildTreeLines_blocks|]. split.
  - apply Sorted_StronglySorted.
    + intros a b c Hab Hbc. unfold descending in *.
      now apply Qle_trans with (getTotalWeight b).
    + apply (Array_sort_Sorted getTotalWeight).
  - intros child. apply selectedChildren_In.
Qed.

(** ** The entries of the bottoms-up view *)

Lemma descending_trans {A : Type} (key : A -> Q) (a b c : A) :
  descending key a b -> descending key b c -> descending key a c.
Proof.
  unfold descending. intros Hab Hbc. now apply Qle_trans with (key b).
Qed.

(** The entries are made from the bindings that pass the filter, sorted. *)
Lemma buildBottomsUpEntries_bindings (node : CallTreeNode)
      (totalWeight minSelfWeight : Q) :
  buildBottomsUpEntries node totalWeight minSelfWeight
  = map (entryOfBinding totalWeight)
        (Array_sort bindingBySelfDesc
           (filter (passes minSelfWeight) (walkSubtree node []))).
Proof.
  rewrite buildBottomsUpEntries_eq.
  apply Array_sort_map. reflexivity.
Qed.

(** Filtering the bindings keeps their keys distinct. *)
Lemma filter_keys_NoDup (keep : Frame.t * Weights.t -> bool) (m : FrameMap) :
  NoDup (keys m) -> NoDup (keys (filter keep m)).
Proof.
  unfold keys. induction m as [|binding m IH]; intros Hm; cbn [filter map] in *.
  - constructor.
  - inversion Hm as [|? ? Hfresh Hrest]; subst.
    destruct (keep binding); cbn [map]; [|now apply IH].
    constructor; [|now apply IH].
    intros Hin. apply Hfresh. apply in_map_iff in Hin.
    destruct Hin as [other [Hkey Hin]]. apply filter_In in Hin.
    apply in_map_iff. exists other. now split.
Qed.

Lemma filter_length_le {A : Type} (p q : A -> bool) (l : list A) :
  (forall x, p x = true -> q x = true) ->
  (List.length (filter p l) <= List.length (filter q l))%nat.
Proof.
  intros Hpq. induction l as [|x l IH]; cbn [filter].
  - apply Nat.le_refl.
  - destruct (p x) eqn:Hp.
    + rewrite (Hpq x Hp). cbn [List.length]. now apply le_n_S.
    + destruct (q x); cbn [List.length]; [now apply Nat.le_le_succ_r | exact IH].
Qed.

(** X4.  The entries come in order of self weight, largest first: every
    entry has at least the self weight of every entry after it; and each of
    them reaches the threshold. *)
Theorem bottomsUp_entries_descending
        (node : CallTreeNode) (totalWeight minSelfWeight : Q) :
  StronglySorted (descending BottomsUpEntry.selfWeight)
                 (buildBottomsUpEntries node totalWeight minSelfWeight)
  /\ Forall (fun e => minSelfWeight <= BottomsUpEntry.selfWeight e)
            (buildBottomsUpEntries node totalWeight minSelfWeight).
Proof.
  split.
  - apply Sorted_StronglySorted.
    + intros a b c. apply descending_trans.
    + apply buildBottomsUpEntries_Sorted.
  - apply Forall_forall. intros e He.
    apply buildBottomsUpEntries_In in He.
    destruct He as [f [w [_ [Hle ->]]]]. exact Hle.
Qed.

(** X5.  No frame has two entries: the frames of the entries are pairwise
    distinct, whatever the tree and the threshold. *)
Theorem bottomsUp_entries_distinct_frames
        (node : CallTreeNode) (totalWeight minSelfWeight : Q) :
  NoDup (map BottomsUpEntry.frame
             (buildBottomsUpEntries node totalWeight minSelfWeight)).
Proof.
  rewrite buildBottomsUpEntries_eq.
  apply (Permutation_NoDup
           (Permutation_sym
              (Permutation_map BottomsUpEntry.frame (Array_sort_perm _ _)))).
  rewrite map_map. cbn [entryOfBinding entryOf BottomsUpEntry.frame].
  apply (filter_keys_NoDup (passes minSelfWeight)). apply walkSubtree_NoDup.
Qed.

(** X6.  Raising the self-weight threshold only drops entries: with
    [t1 <= t2] every entry returned at [t2] is returned at [t1], and there are
    at most as many. *)
Theorem bottomsUp_threshold_monotone
        (node : CallTreeNode) (totalWeight t1 t2 : Q) :
  t1 <= t2 ->
  incl (buildBottomsUpEntries node totalWeight t2)
       (buildBottomsUpEntries node totalWeight t1)
  /\ (List.length (buildBottomsUpEntries node totalWeight t2)
      <= List.length (buildBottomsUpEntries node totalWeight t1))%nat.
Proof.
  intros Hle. split.
  - intros e He. apply buildBottomsUpEntries_In in He.
    destruct He as [f [w [Hget [Hw ->]]]].
    apply buildBottomsUpEntries_In. exists f, w. repeat split; [exact Hget|].
    now apply Qle_trans with t2.
  - rewrite !buildBottomsUpEntries_bindings, !length_map.
    rewrite !(Permutation_length (Array_sort_perm _ _)).
    apply filter_length_le. intros [f w]. unfold passes, Qge_bool. cbn [snd].
    rewrite !Qle_bool_iff. intros Hw. now apply Qle_trans with t2.
Qed.

Lemma bottomsUp_threshold_monotone_witness :
  1 <= 50
  /\ incl (buildBottomsUpEntries exampleRoot 100 50)
          (buildBottomsUpEntries exampleRoot 100 1)
  /\ (List.length (buildBottomsUpEntries exampleRoot 100 50)
      <= List.length (buildBottomsUpEntries exampleRoot 100 1))%nat.
Proof.
  assert (Hle : 1 <= 50) by discriminate.
  split; [exact Hle|].
  exact (bottomsUp_threshold_monotone exampleRoot 100 1 50 Hle).
Defined.

Lemma accumulate_keys_old (m : FrameMap) (n : CallTreeNode) :
  In (frame n) (keys m) -> keys (accumulate m n) = keys m.
Proof.
  unfold keys. induction m as [|[k v] m IH]; intros Hin.
  - destruct Hin.
  - rewrite accumulate_cons.
    destruct (Frame.eq_dec k (frame n)) as [Heq|Hne]; cbn [map fst].
    + reflexivity.
    + f_equal. apply IH. destruct Hin as [Hk|Hin]; [contradiction|exact Hin].
Qed.

Lemma accumulate_keys_new (m : FrameMap) (n : CallTreeNode) :
  ~ In (frame n) (keys m) -> keys (accumulate m n) = (keys m ++ [frame n])%list.
Proof.
  unfold keys. induction m as [|[k v] m IH]; intros Hnot.
  - reflexivity.
  - rewrite accumulate_cons.
    destruct (Frame.eq_dec k (frame n)) as [Heq|Hne]; cbn [map fst app].
    + exfalso. apply Hnot. now left.
    + f_equal. apply IH. intros Hin. apply Hnot. now right.
Qed.

Lemma fold_accumulate_keys (l : list CallTreeNode) :
  forall m,
    keys (fold_left accumulate l m) = fold_left noteFrame (map frame l) (keys m).
Proof.
  induction l as [|n l IH]; intros m; cbn [fold_left map].
  - reflexivity.
  - rewrite IH. f_equal. unfold noteFrame.
    destruct (in_dec Frame.eq_dec (frame n) (keys m)).
    + now apply accumulate_keys_old.
    + now apply accumulate_keys_new.
Qed.

(** X7.  The map lists the frames in the order in which the walk first
    meets them, in pre-order over the nodes that are not the root. *)
Theorem walkSubtree_first_visit_order (start : CallTreeNode) :
  keys (walkSubtree start []) = firstSeen (map frame (visited start)).
Proof.
  rewrite walkSubtree_fold. apply fold_accumulate_keys.
Qed.

(** X8.  The baseline only sets the percentages: which frames have an entry,
    their weights and their order are the same for every [totalWeight]. *)
Theorem bottomsUp_baseline_only_percentages
        (node : CallTreeNode) (totalWeight totalWeight' minSelfWeight : Q) :
  map entryWeights (buildBottomsUpEntries node totalWeight minSelfWeight)
  = map entryWeights (buildBottomsUpEntries node totalWeight' minSelfWeight)
  /\ Forall
       (fun e =>
          BottomsUpEntry.selfPercent e
          = (BottomsUpEntry.selfWeight e / totalWeight) * 100
          /\ BottomsUpEntry.totalPercent e
             = (BottomsUpEntry.totalWeight e / totalWeight) * 100)
       (buildBottomsUpEntries node totalWeight minSelfWeight).
Proof.
  split.
  - rewrite !buildBottomsUpEntries_bindings, !map_map. reflexivity.
  - apply Forall_forall. intros e He.
    apply buildBottomsUpEntries_In in He.
    destruct He as [f [w [_ [_ ->]]]]. split; reflexivity.
Qed.

(** ** Ties *)

(** The sort is stable: the elements of one key keep their order. *)
Section SortStable.
Context {A : Type} (key : A -> Q).

Lemma sort_insert_same_key (q : Q) (x : A) (l : list A) :
  filter (fun y => Qeq_bool (key y) q)
         (sort_insert (fun a b => key b - key a) x l)
  = filter (fun y => Qeq_bool (key y) q) (x :: l).
Proof.
  induction l as [|y l IH]; cbn [sort_insert].
  - reflexivity.
  - unfold Qneg_bool.
    destruct (Qle_bool 0 (key x - key y)) eqn:Hcmp; cbn [negb]; [reflexivity|].
    assert (Hlt : key x < key y).
    { apply Qnot_le_lt. intros Hle. apply Qle_minus_iff in Hle.
      apply Qle_bool_iff in Hle. unfold Qminus in Hcmp. congruence. }
    cbn [filter] in *. rewrite IH.
    destruct (Qeq_bool (key x) q) eqn:Hx; [|reflexivity].
    destruct (Qeq_bool (key y) q) eqn:Hy; [|reflexivity].
    apply Qeq_bool_iff in Hx, Hy. exfalso.
    rewrite Hx, Hy in Hlt. now apply (Qlt_irrefl q).
Qed.

Lemma Array_sort_same_key (q : Q) (l : list A) :
  filter (fun y => Qeq_bool (key y) q)
         (Array_sort (fun a b => key b - key a) l)
  = filter (fun y => Qeq_bool (key y) q) l.
Proof.
  induction l as [|x l IH]; cbn [Array_sort].
  - reflexivity.
  - rewrite sort_insert_same_key. cbn [filter]. now rewrite IH.
Qed.
End SortStable.

(** X9.  Ties are broken by position: the entries of one self weight come
    in the order in which their frames were first met by the walk, and the
    children of one total weight are rendered in the order in which the
    node stores them. *)
Theorem ties_keep_first_order
        (node : CallTreeNode) (totalWeight minSelfWeight minWeight q : Q) :
  filter (fun e => Qeq_bool (BottomsUpEntry.selfWeight e) q)
         (buildBottomsUpEntries node totalWeight minSelfWeight)
  = map (entryOfBinding totalWeight)
        (filter (fun binding => Qeq_bool (Weights.selfWeight (snd binding)) q)
                (filter (passes minSelfWeight) (walkSubtree node [])))
  /\ filter (fun child => Qeq_bool (getTotalWeight child) q)
            (selectedChildren minWeight node)
     = filter (fun child => Qeq_bool (getTotalWeight child) q)
              (filter (fun child => Qge_bool (getTotalWeight child) minWeight)
                      (children node)).
Proof.
  split.
  - rewrite buildBottomsUpEntries_bindings.
    rewrite (filter_map_comm (entryOfBinding totalWeight)
               (fun binding => Qeq_bool (Weights.selfWeight (snd binding)) q))
      by reflexivity.
    f_equal.
    apply (Array_sort_same_key (fun binding => Weights.selfWeight (snd binding))).
  - apply (Array_sort_same_key getTotalWeight).
Qed.

(** ** The two rows of a call-tree line *)

Lemma length_append (a b : string) :
  String.length (a ++ b) = (String.length a + String.length b)%nat.
Proof.
  induction a as [|c a IH]; cbn [append String.length].
  - reflexivity.
  - now rewrite IH.
Qed.

Lemma js_length_append (a b : string) :
  js_length (a ++ b) = (js_length a + js_length b)%nat.
Proof.
  induction a as [|c a IH]; cbn [append js_length].
  - reflexivity.
  - rewrite IH. apply Nat.add_assoc.
Qed.

Lemma js_length_str_repeat_space (n : nat) :
  js_length (str_repeat " " n) = n.
Proof.
  induction n as [|n IH]; cbn [str_repeat].
  - reflexivity.
  - rewrite js_length_append, IH. reflexivity.
Qed.

(** X10.  [formatTreeLine] returns two rows with the same indentation: the
    name with its location, and the stats behind a run of spaces.  The stats
    are never cut; counted as JavaScript counts, in UTF-16 code units, the
    second row is as long as the first when the stats are not longer than
    the name, and longer otherwise. *)
Theorem formatTreeLine_alignment (formatPercent : Q -> string)
        (line : TreeLine.t) (formatValue : Q -> string) :
  let name :=
    displayName (TreeLine.name line) (TreeLine.file line)
                (TreeLine.line line) (TreeLine.col line) in
  let stats := statsOf formatPercent line formatValue in
  exists pad,
    formatTreeLine formatPercent line formatValue
    = [ TreeLine.indent line ++ name;
        TreeLine.indent line ++ str_repeat " " pad ++ stats ]
    /\ pad = (js_length name - js_length stats)%nat
    /\ js_length (TreeLine.indent line ++ name)
       = (js_length (TreeLine.indent line) + js_length name)%nat
    /\ js_length (TreeLine.indent line ++ str_repeat " " pad ++ stats)
       = (js_length (TreeLine.indent line)
          + Nat.max (js_length name) (js_length stats))%nat.
Proof.
  cbv zeta.
  exists (js_length
            (displayName (TreeLine.name line) (TreeLine.file line)
                         (TreeLine.line line) (TreeLine.col line))
          - js_length (statsOf formatPercent line formatValue))%nat.
  split; [reflexivity|]. split; [reflexivity|].
  split; [apply js_length_append|].
  rewrite !js_length_append, js_length_str_repeat_space. lia.
Qed.

(** The length JavaScript reports: the connectors count three units, a
    micro sign one. *)
Lemma js_length_examples :
  js_length "└─ " = 3%nat /\ js_length "│  " = 3%nat /\ js_length "12µs" = 4%nat.
Proof. repeat split. Qed.

(** ** The reports *)

Lemma join_app_length (sep : string) (h r : list string) :
  h <> [] -> r <> [] ->
  String.length (join sep (h ++ r))
  = (String.length (join sep h) + String.length sep
     + String.length (join sep r))%nat.
Proof.
  intros Hh Hr. destruct r as [|x r]; [contradiction|]. clear Hr.
  induction h as [|a h IH]; [contradiction|]. clear Hh.
  destruct h as [|b h].
  - change (join sep ([a] ++ x :: r)) with (a ++ sep ++ join sep (x :: r)).
    change (join sep [a]) with a.
    rewrite !length_append. lia.
  - change (join sep ((a :: b :: h) ++ x :: r))
      with (a ++ sep ++ join sep ((b :: h) ++ x :: r)).
    change (join sep (a :: b :: h)) with (a ++ sep ++ join sep (b :: h)).
    rewrite !length_append, IH by discriminate. lia.
Qed.

Lemma join_app_neq (h r : list string) :
  h <> [] -> r <> [] -> join LF (h ++ r) <> join LF h.
Proof.
  intros Hh Hr Heq. apply (f_equal String.length) in Heq.
  rewrite (join_app_length LF h r Hh Hr) in Heq.
  cbn [LF String.length] in Heq. lia.
Qed.

(** X11.  A report on a selected node, one that is not the root, is never
    the sentinel: the node's own line is always in the call tree, even when
    every weight is 0. *)
Theorem selection_report_has_data (formatPercent : Q -> string)
        (options : TreeSummaryOptions.t) :
  isRoot (TreeSummaryOptions.node options) = false ->
  generateTreeSummary formatPercent options <> "No data available".
Proof.
  intros Hroot. rewrite generateTreeSummary_layout. cbv zeta.
  rewrite buildTreeLines_blocks, Hroot. cbn [app].
  destruct (buildBottomsUpEntries _ _ _); titled_report.
Qed.

Lemma selection_report_has_data_witness :
  isRoot exampleA = false
  /\ generateTreeSummary formatPercent_oneDecimal
       {| TreeSummaryOptions.node := exampleA;
          TreeSummaryOptions.totalWeight := 0;
          TreeSummaryOptions.formatValue := formatValue_plain |}
     <> "No data available".
Proof.
  split; [reflexivity|].
  apply (selection_report_has_data formatPercent_oneDecimal
           {| TreeSummaryOptions.node := exampleA;
              TreeSummaryOptions.totalWeight := 0;
              TreeSummaryOptions.formatValue := formatValue_plain |}).
  reflexivity.
Defined.

(** X12.  For a profile whose call-tree root is the root, the two reports
    agree on what is empty: the single report of the whole profile is the
    sentinel exactly when the multi-profile report of that profile alone is
    its header and nothing else. *)
Theorem single_and_multi_agree_on_empty (formatPercent : Q -> string)
        (name : string) (root : CallTreeNode) (totalWeight : Q)
        (formatValue : Q -> string) :
  isRoot root = true ->
  (generateTreeSummary formatPercent
     {| TreeSummaryOptions.node := root;
        TreeSummaryOptions.totalWeight := totalWeight;
        TreeSummaryOptions.formatValue := formatValue |}
   = "No data available"
   <-> generateAllProfilesSummary formatPercent
         [ {| ProfileInfo.name := name;
              ProfileInfo.profile :=
                {| Profile.getGroupedCalltreeRoot := root;
                   Profile.getTotalNonIdleWeight := totalWeight;
                   Profile.formatValue := formatValue |} |} ]
       = join LF
           [ "Performance Profile Summary"; str_repeat "=" 60; "";
             "Total profiles: 1"; "" ]).
Proof.
  intros Hroot.
  rewrite generateTreeSummary_layout, generateAllProfilesSummary_layout.
  cbv zeta. unfold profileRows, profileSections, selectionWeight.
  cbn [TreeSummaryOptions.node TreeSummaryOptions.totalWeight
         TreeSummaryOptions.formatValue ProfileInfo.name ProfileInfo.profile
         Profile.getGroupedCalltreeRoot Profile.getTotalNonIdleWeight
         Profile.formatValue List.length Nat.ltb Nat.leb mapi_from List.concat
         app].
  rewrite Hroot, app_nil_r.
  change (allProfilesHeader 1)
    with [ "Performance Profile Summary"; str_repeat "=" 60; "";
           "Total profiles: 1"; "" ].
  destruct (buildBottomsUpEntries root totalWeight (totalWeight * (1 # 100)))
    as [|e entries];
    destruct (buildTreeLines root totalWeight (totalWeight * (1 # 100))
                [] "" true true) as [|l lines].
  - split; reflexivity.
  - split; [titled_report|]. intros Heq. exfalso.
    revert Heq. apply join_app_neq; discriminate.
  - split; [titled_report|]. intros Heq. exfalso.
    revert Heq. apply join_app_neq; discriminate.
  - split; [titled_report|]. intros Heq. exfalso.
    revert Heq. apply join_app_neq; discriminate.
Qed.

Lemma single_and_multi_agree_on_empty_witness :
  isRoot emptyRoot = true
  /\ generateAllProfilesSummary formatPercent_oneDecimal
       [ {| ProfileInfo.name := "empty";
            ProfileInfo.profile :=
              {| Profile.getGroupedCalltreeRoot := emptyRoot;
                 Profile.getTotalNonIdleWeight := 0;
                 Profile.formatValue := formatValue_plain |} |} ]
     = join LF
         [ "Performance Profile Summary"; str_repeat "=" 60; "";
           "Total profiles: 1"; "" ].
Proof.
  split; [reflexivity|].
  apply (single_and_multi_agree_on_empty formatPercent_oneDecimal "empty"
           emptyRoot 0 formatValue_plain); reflexivity.
Defined.

(** ** The context menu *)

Lemma Math_min_spec (a b : Q) :
  (a <= b /\ ContextMenu.Math_min a b = a)
  \/ (b < a /\ ContextMenu.Math_min a b = b).
Proof.
  unfold ContextMenu.Math_min. destruct (Qle_bool a b) eqn:Hle.
  - left. split; [now apply Qle_bool_iff | reflexivity].
  - right. split; [|reflexivity]. apply Qnot_le_lt. intros H.
    apply Qle_bool_iff in H. congruence.
Qed.

(** X13.  The menu is never placed right of or below the point asked for,
    and its right and bottom edges, for the width of 180 and the height of
    30 per item plus 8 that [render] assumes, stay at least 10 away from the
    edges of the window. *)
Theorem menu_stays_inside (count : nat) (x y innerWidth innerHeight : Q) :
  ContextMenu.adjustedX x innerWidth <= x
  /\ ContextMenu.adjustedX x innerWidth + 180 + 10 <= innerWidth
  /\ ContextMenu.adjustedY count y innerHeight <= y
  /\ ContextMenu.adjustedY count y innerHeight
     + (inject_Z (Z.of_nat count) * 30 + 8) + 10
     <= innerHeight.
Proof.
  unfold ContextMenu.adjustedX, ContextMenu.adjustedY, ContextMenu.menuWidth,
    ContextMenu.menuHeight.
  destruct (Math_min_spec x (innerWidth - 180 - 10)) as [[Hx ->]|[Hx ->]];
    destruct (Math_min_spec y
                (innerHeight - (inject_Z (Z.of_nat count) * 30 + 8) - 10))
      as [[Hy ->]|[Hy ->]];
    repeat split; lra.
Qed.

(** X14.  A menu that fits where it is asked for is not moved. *)
Theorem menu_kept_when_it_fits (count : nat) (x y innerWidth innerHeight : Q) :
  x + 180 + 10 <= innerWidth ->
  y + (inject_Z (Z.of_nat count) * 30 + 8) + 10 <= innerHeight ->
  ContextMenu.adjustedX x innerWidth = x
  /\ ContextMenu.adjustedY count y innerHeight = y.
Proof.
  intros Hx Hy.
  unfold ContextMenu.adjustedX, ContextMenu.adjustedY, ContextMenu.menuWidth,
    ContextMenu.menuHeight, ContextMenu.Math_min.
  assert (Hx' : Qle_bool x (innerWidth - 180 - 10) = true)
    by (apply Qle_bool_iff; lra).
  assert (Hy' : Qle_bool y
                  (innerHeight - (inject_Z (Z.of_nat count) * 30 + 8) - 10)
                = true)
    by (apply Qle_bool_iff; lra).
  now rewrite Hx', Hy'.
Qed.

Lemma menu_kept_when_it_fits_witness :
  100 + 180 + 10 <= 1024
  /\ 50 + (inject_Z (Z.of_nat 3) * 30 + 8) + 10 <= 768
  /\ ContextMenu.adjustedX 100 1024 = 100
  /\ ContextMenu.adjustedY 3 50 768 = 50.
Proof.
  assert (Hx : 100 + 180 + 10 <= 1024) by discriminate.
  assert (Hy : 50 + (inject_Z (Z.of_nat 3) * 30 + 8) + 10 <= 768)
    by discriminate.
  split; [exact Hx|]. split; [exact Hy|].
  exact (menu_kept_when_it_fits 3 100 50 1024 768 Hx Hy).
Defined.

(** X15.  The placement is not clamped at the top-left corner: in a window
    narrower than 190, or lower than the menu's height plus 10, a menu asked
    for inside the window gets a negative coordinate. *)
Theorem menu_can_leave_the_window (count : nat) (x y innerWidth innerHeight : Q) :
  (0 <= x -> innerWidth < 190 -> ContextMenu.adjustedX x innerWidth < 0)
  /\ (0 <= y ->
      innerHeight < inject_Z (Z.of_nat count) * 30 + 8 + 10 ->
      ContextMenu.adjustedY count y innerHeight < 0).
Proof.
  unfold ContextMenu.adjustedX, ContextMenu.adjustedY, ContextMenu.menuWidth,
    ContextMenu.menuHeight.
  split.
  - intros Hx Hw.
    destruct (Math_min_spec x (innerWidth - 180 - 10)) as [[H ->]|[H ->]]; lra.
  - intros Hy Hh.
    destruct (Math_min_spec y
                (innerHeight - (inject_Z (Z.of_nat count) * 30 + 8) - 10))
      as [[H ->]|[H ->]]; lra.
Qed.

Lemma menu_can_leave_the_window_witness :
  0 <= 20 /\ 150 < 190
  /\ 0 <= 5 /\ 40 < inject_Z (Z.of_nat 2) * 30 + 8 + 10
  /\ ContextMenu.adjustedX 20 150 < 0
  /\ ContextMenu.adjustedY 2 5 40 < 0.
Proof.
  assert (H1 : 0 <= 20) by discriminate.
  assert (H2 : 150 < 190) by reflexivity.
  assert (H3 : 0 <= 5) by discriminate.
  assert (H4 : 40 < inject_Z (Z.of_nat 2) * 30 + 8 + 10) by reflexivity.
  destruct (menu_can_leave_the_window 2 20 5 150 40) as [Hx Hy].
  split; [exact H1|]. split; [exact H2|].
  split; [exact H3|]. split; [exact H4|].
  split; [exact (Hx H1 H2) | exact (Hy H3 H4)].
Defined.

Lemma addEventListener_new (l : ContextMenu.listener)
      (registered : list ContextMenu.listener) :
  ~ In l registered ->
  ContextMenu.addEventListener l registered = (registered ++ [l])%list.
Proof.
  induction registered as [|x rest IH]; intros Hnot;
    cbn [ContextMenu.addEventListener app].
  - reflexivity.
  - destruct (ContextMenu.listener_eq_dec x l) as [Heq|Hne].
    + exfalso. apply Hnot. now left.
    + f_equal. apply IH. intros Hin. apply Hnot. now right.
Qed.

Lemma removeEventListener_added (l : ContextMenu.listener)
      (registered later : list ContextMenu.listener) :
  ~ In l registered ->
  ContextMenu.removeEventListener l (registered ++ l :: later)
  = (registered ++ later)%list.
Proof.
  induction registered as [|x rest IH]; intros Hnot;
    cbn [ContextMenu.removeEventListener app].
  - destruct (ContextMenu.listener_eq_dec l l); [reflexivity|contradiction].
  - destruct (ContextMenu.listener_eq_dec x l) as [Heq|Hne].
    + exfalso. apply Hnot. now left.
    + f_equal. apply IH. intros Hin. apply Hnot. now right.
Qed.

(** X16.  Unmounting undoes mounting: when no listener of the instance is
    registered before [componentDidMount], the listeners registered after
    [componentWillUnmount] are those registered before, in the same order;
    in between, the instance's three listeners come last. *)
Theorem mount_then_unmount (this : nat)
        (registered : list ContextMenu.listener) :
  Forall (fun l => ContextMenu.owner l <> this) registered ->
  ContextMenu.componentDidMount this registered
  = (registered
     ++ [ ContextMenu.mkListener ContextMenu.document "mousedown" this
            ContextMenu.handleClickOutside;
          ContextMenu.mkListener ContextMenu.document "keydown" this
            ContextMenu.handleKeyDown;
          ContextMenu.mkListener ContextMenu.window "blur" this
            ContextMenu.handleClose ])%list
  /\ ContextMenu.componentWillUnmount this
       (ContextMenu.componentDidMount this registered)
     = registered.
Proof.
  intros Hfresh. rewrite Forall_forall in Hfresh.
  assert (Hnot : forall l, ContextMenu.owner l = this -> ~ In l registered).
  { intros l Hl Hin. now apply (Hfresh l Hin). }
  assert (Hmount :
            ContextMenu.componentDidMount this registered
            = (registered
               ++ [ ContextMenu.mkListener ContextMenu.document "mousedown" this
                      ContextMenu.handleClickOutside;
                    ContextMenu.mkListener ContextMenu.document "keydown" this
                      ContextMenu.handleKeyDown;
                    ContextMenu.mkListener ContextMenu.window "blur" this
                      ContextMenu.handleClose ])%list).
  { unfold ContextMenu.componentDidMount. cbv zeta.
    rewrite (addEventListener_new _ registered) by now apply Hnot.
    rewrite (addEventListener_new _ (registered ++ [_])%list).
    - rewrite (addEventListener_new _ ((registered ++ [_]) ++ [_])%list).
      + now rewrite <- !app_assoc.
      + rewrite !in_app_iff. intros [[Hin|Hin]|Hin].
        * revert Hin. now apply Hnot.
        * destruct Hin as [Heq|[]]. discriminate Heq.
        * destruct Hin as [Heq|[]]. discriminate Heq.
    - rewrite in_app_iff. intros [Hin|Hin].
      + revert Hin. now apply Hnot.
      + destruct Hin as [Heq|[]]. discriminate Heq. }
  split; [exact Hmount|].
  rewrite Hmount. unfold ContextMenu.componentWillUnmount. cbv zeta.
  rewrite (removeEventListener_added _ registered) by now apply Hnot.
  rewrite (removeEventListener_added _ registered) by now apply Hnot.
  rewrite (removeEventListener_added _ registered) by now apply Hnot.
  apply app_nil_r.
Qed.

Lemma mount_then_unmount_witness :
  Forall (fun l => ContextMenu.owner l <> 2%nat)
         [ ContextMenu.mkListener ContextMenu.window "resize" 1
             ContextMenu.handleClose ]
  /\ ContextMenu.componentWillUnmount 2
       (ContextMenu.componentDidMount 2
          [ ContextMenu.mkListener ContextMenu.window "resize" 1
              ContextMenu.handleClose ])
     = [ ContextMenu.mkListener ContextMenu.window "resize" 1
           ContextMenu.handleClose ].
Proof.
  assert (Hfresh :
            Forall (fun l => ContextMenu.owner l <> 2%nat)
                   [ ContextMenu.mkListener ContextMenu.window "resize" 1
                       ContextMenu.handleClose ]).
  { repeat constructor. cbn. discriminate. }
  split; [exact Hfresh|].
  exact (proj2 (mount_then_unmount 2 _ Hfresh)).
Defined.

(** ** Indentation *)

Lemma append_assoc (a b c : string) : (a ++ b) ++ c = a ++ b ++ c.
Proof.
  induction a as [|x a IH]; cbn [append].
  - reflexivity.
  - now rewrite IH.
Qed.

(** X17.  In a subtree without a root, every line is indented by the prefix
    the call was given, followed by the connectors and continuations of the
    levels below: no line of a subtree is indented less than the subtree. *)
Theorem subtree_lines_share_prefix (node : CallTreeNode) :
  forall totalWeight minWeight prefix isLast isRootArg,
    Forall (fun n => isRoot n = false) (nodes node) ->
    Forall (fun l => exists rest, TreeLine.indent l = prefix ++ rest)
           (buildTreeLines node totalWeight minWeight [] prefix isLast isRootArg).
Proof.
  induction node as [node IH] using CallTreeNode_tree_ind.
  intros totalWeight minWeight prefix isLast isRootArg Hnodes.
  rewrite Forall_forall in IH.
  rewrite buildTreeLines_blocks.
  rewrite (nodes_self _ _ Hnodes). apply Forall_app. split.
  - repeat constructor. now exists (connectorOf isLast isRootArg).
  - apply Forall_concat_mapi. intros child i Hchild.
    apply selectedChildren_In in Hchild. destruct Hchild as [Hin _].
    pose proof (IH child Hin totalWeight minWeight
                  (childPrefixOf prefix isLast isRootArg)
                  (i =? List.length (selectedChildren minWeight node) - 1)%nat
                  false (nodes_child _ _ _ Hnodes Hin)) as Hchild.
    eapply Forall_impl; [|exact Hchild].
    intros l [rest Hrest]. unfold childPrefixOf in Hrest.
    rewrite append_assoc in Hrest. eauto.
Qed.

Lemma subtree_lines_share_prefix_witness :
  Forall (fun n => isRoot n = false) (nodes exampleA)
  /\ Forall (fun l => exists rest, TreeLine.indent l = "│  " ++ rest)
            (buildTreeLines exampleA 100 1 [] "│  " true false).
Proof.
  assert (Hnodes : Forall (fun n => isRoot n = false) (nodes exampleA)).
  { vm_compute nodes. repeat constructor. }
  split; [exact Hnodes|].
  exact (subtree_lines_share_prefix exampleA 100 1 "│  " true false Hnodes).
Defined.
